(** * ach-calculator-server: the ACH routes over their table

    A shallow embedding of [routes/routesAch.mjs]: the five handlers that
    the Express router registers, the four pg-promise methods they call
    ([db.any], [db.oneOrNone], [db.one], [db.result]) and the five SQL
    statements they send to the table [ach_data].

    The handlers are state transformers over a [World] holding the table,
    its id sequence, the statements issued so far, the failures the driver
    is about to raise, and the lines written by [console.error]. What the
    storage engine makes of a bound value is a parameter, the class
    [Engine]: every theorem holds for every engine. *)

From Stdlib Require Import ZArith SpecFloat Sorted.
From stdpp Require Import gmap strings list.

Local Open Scope string_scope.
Local Open Scope list_scope.
Local Open Scope Z_scope.

(** ** JavaScript values *)

(** A value as [express.json()] leaves it in [req.body]: the JSON values,
    plus [undefined] for what a lookup of an absent property gives.
    Numbers are IEEE doubles, in the Standard Library's specification
    format. *)
#[warnings="-register-all"]
Inductive JsVal : Type :=
| JUndefined
| JNull
| JBool (b : bool)
| JNum (x : spec_float)
| JStr (s : string)
| JArr (l : list JsVal)
| JObj (o : gmap string JsVal).

(** ToBoolean: what [!v] negates. *)
Definition truthy (v : JsVal) : bool :=
  match v with
  | JUndefined | JNull => false
  | JBool b => b
  | JNum (S754_zero _) | JNum S754_nan => false
  | JNum _ => true
  | JStr EmptyString => false
  | JStr _ => true
  | JArr _ | JObj _ => true
  end.

(** Property access [o.k], as the destructuring [const { k } = o] does it. *)
Definition prop (o : gmap string JsVal) (k : string) : JsVal :=
  default JUndefined (o !! k).

(** The double nearest to an integer (exact below 2^53). *)
Definition number_of_Z (i : Z) : spec_float := binary_normalize 53 1024 i 0 false.

(** ** The table [ach_data] *)

Module Row.
(** Modelled from the spec: the declaration of the table [ach_data] is not
    part of the sources; its columns are [id] (generated primary key),
    [room_name], [room_volume], [airflow_rate] and [ach], the names the
    INSERT and UPDATE statements of the routes use. The columns are typed
    as the data model types the fields: [room_name] holds a string, the
    other three hold a number. *)
Record t : Type := mk {
  id : Z;
  room_name : string;
  room_volume : spec_float;
  airflow_rate : spec_float;
  ach : spec_float
}.
End Row.

(** The object the driver builds for a row: one property per column. *)
Definition row_object (r : Row.t) : gmap string JsVal :=
  <["id" := JNum (number_of_Z (Row.id r))]>
  (<["room_name" := JStr (Row.room_name r)]>
  (<["room_volume" := JNum (Row.room_volume r)]>
  (<["airflow_rate" := JNum (Row.airflow_rate r)]>
  (<["ach" := JNum (Row.ach r)]> ∅)))).

(** The statements of the routes, with their bound parameters. *)
Inductive Statement : Type :=
| SelectAll
    (* SELECT * FROM ach_data *)
| SelectById (id : string)
    (* SELECT * FROM ach_data WHERE id = $1 *)
| Insert (roomName roomVolume airflowRate ach : JsVal)
    (* INSERT INTO ach_data(room_name, room_volume, airflow_rate, ach)
       VALUES($1, $2, $3, $4) RETURNING * *)
| Update (roomName roomVolume airflowRate ach : JsVal) (id : string)
    (* UPDATE ach_data SET room_name = $1, room_volume = $2,
       airflow_rate = $3, ach = $4 WHERE id = $5 RETURNING * *)
| DeleteById (id : string).
    (* DELETE FROM ach_data WHERE id = $1 *)

Inductive QueryResultErrorCode : Type := noData | multiple.

(** What a rejected database promise carries. *)
Inductive DbError : Type :=
| QueryResultError (code : QueryResultErrorCode)
    (* pg-promise: the number of rows is not the one the method expects *)
| DatabaseError (sqlstate : string)
    (* the engine refused the statement *)
| ConnectionError (message : string).
    (* the driver could not reach the engine, or lost it *)

(** The driver's result object. *)
Record Result : Type := mkResult {
  rows : list Row.t;
  rowCount : nat
}.

(** What the storage engine makes of the values the routes bind. The
    handlers check nothing but truthiness and bind the path parameter and
    the four body values as they arrive, so these conversions are all the
    parsing and typing a request ever gets.
    - [id_of_text]: the text bound to [WHERE id = $n] read as a value of
      the [id] column; [None] when the engine refuses the text.
    - [text_of_value]: a value bound to [room_name] read as a string.
    - [number_of_value]: a value bound to [room_volume], [airflow_rate]
      or [ach] read as a number.
    The last two give the error the statement fails with when the engine
    refuses the value. *)
Class Engine : Type := {
  id_of_text : string → option Z;
  text_of_value : JsVal → DbError + string;
  number_of_value : JsVal → DbError + spec_float
}.

(** Modelled from the spec: [id] is generated by the storage and is the
    primary key. The table carries the sequence the ids are drawn from; an
    INSERT takes its next value and is refused when a stored row already
    has it. The rows are kept in a list; no statement below depends on
    the order the engine returns them in, which the spec leaves open. *)
Record Table : Type := mkTable {
  ach_data : list Row.t;
  ach_data_id_seq : Z        (* next value of the generated id *)
}.

Definition invalid_text_representation : DbError := DatabaseError "22P02".
Definition unique_violation : DbError := DatabaseError "23505".

Definition has_id (i : Z) (r : Row.t) : bool := Row.id r =? i.

(** The four business values of a row, as the columns hold them. *)
Record Fields : Type := mkFields {
  name : string;
  volume : spec_float;
  rate : spec_float;
  changes : spec_float
}.

Definition with_id (i : Z) (v : Fields) : Row.t :=
  Row.mk i (name v) (volume v) (rate v) (changes v).

Definition set_fields (v : Fields) (r : Row.t) : Row.t := with_id (Row.id r) v.

Section Engine.
Context `{Engine}.

(** The four bound values as the columns take them, or the error of the
    first one the engine refuses. *)
Definition bind (roomName roomVolume airflowRate ach : JsVal) : DbError + Fields :=
  match text_of_value roomName with
  | inl e => inl e
  | inr name =>
      match number_of_value roomVolume with
      | inl e => inl e
      | inr volume =>
          match number_of_value airflowRate with
          | inl e => inl e
          | inr rate =>
              match number_of_value ach with
              | inl e => inl e
              | inr changes => inr (mkFields name volume rate changes)
              end
          end
      end
  end.

(** One statement against the table: the new table, and the rows and
    row count it yields or the error it raises. SELECT * and RETURNING *
    yield whole rows; WHERE id = $n selects the rows whose id is the one
    the engine reads from the bound text. A statement the engine refuses,
    for the text of the id or for a value, changes nothing; an INSERT
    refused for its id has drawn from the sequence all the same. *)
Definition execute (q : Statement) (t : Table) : Table * (DbError + Result) :=
  match q with
  | SelectAll =>
      (t, inr (mkResult (ach_data t) (length (ach_data t))))
  | SelectById id =>
      match id_of_text id with
      | None => (t, inl invalid_text_representation)
      | Some i =>
          let found := List.filter (has_id i) (ach_data t) in
          (t, inr (mkResult found (length found)))
      end
  | Insert roomName roomVolume airflowRate ach =>
      match bind roomName roomVolume airflowRate ach with
      | inl e => (t, inl e)
      | inr v =>
          let i := ach_data_id_seq t in
          if existsb (has_id i) (ach_data t)
          then (mkTable (ach_data t) (i + 1), inl unique_violation)
          else
            let r := with_id i v in
            (mkTable (ach_data t ++ [r]) (i + 1), inr (mkResult [r] 1))
      end
  | Update roomName roomVolume airflowRate ach id =>
      match id_of_text id with
      | None => (t, inl invalid_text_representation)
      | Some i =>
          match bind roomName roomVolume airflowRate ach with
          | inl e => (t, inl e)
          | inr v =>
              let changed := set_fields v <$> List.filter (has_id i) (ach_data t) in
              (mkTable ((λ r, if has_id i r then set_fields v r else r) <$> ach_data t)
                       (ach_data_id_seq t),
               inr (mkResult changed (length changed)))
          end
      end
  | DeleteById id =>
      match id_of_text id with
      | None => (t, inl invalid_text_representation)
      | Some i =>
          let gone := List.filter (has_id i) (ach_data t) in
          (mkTable (List.filter (λ r, negb (has_id i r)) (ach_data t))
                   (ach_data_id_seq t),
           inr (mkResult [] (length gone)))
      end
  end.
End Engine.

(** ** The server's world *)

(** A failure of the driver strikes before the statement reaches the
    engine, or after the engine has run it: the call rejects either way,
    and in the second case what the statement wrote stays written. *)
Inductive Fault : Type :=
| before_statement (e : DbError)
| after_statement (e : DbError).

Record World : Type := mkWorld {
  table : Table;
  faults : list (option Fault);
    (* what the driver does on the coming calls: [Some f] rejects the call *)
  issued : list Statement;
    (* every statement handed to the driver, oldest first *)
  console : list (string * DbError)
    (* the lines of console.error, oldest first *)
}.

Definition console_error (label : string) (error : DbError) (w : World) : World :=
  mkWorld (table w) (faults w) (issued w) (console w ++ [(label, error)]).

(** ** Requests and responses *)

(** What the handlers read of a request: the path parameter [id], a
    string as the router cuts it out of the URL, and the object that
    [express.json()] parsed the body into. *)
Record Request : Type := mkRequest {
  params_id : string;               (* req.params.id *)
  body : gmap string JsVal          (* req.body *)
}.

(** What a handler passes to [res.json]. *)
Inductive Json : Type :=
| message_object (message : string)      (* { message: ... } *)
| row (r : Row.t)                        (* a row object of the driver *)
| row_array (data : list Row.t).         (* an array of them *)

Definition to_json (j : Json) : JsVal :=
  match j with
  | message_object m => JObj {[ "message" := JStr m ]}
  | row r => JObj (row_object r)
  | row_array data => JArr ((λ r, JObj (row_object r)) <$> data)
  end.

Record Response : Type := mkResponse {
  status : Z;
  sent : option Json        (* [None]: res.send() without a body *)
}.

(** [res.json(v)], [res.status(c).json(v)] and [res.status(c).send()]. *)
Definition res_json (v : Json) : Response := mkResponse 200 (Some v).
Definition res_status_json (c : Z) (v : Json) : Response := mkResponse c (Some v).
Definition res_status_send (c : Z) : Response := mkResponse c None.

Section Routes.
Context `{Engine}.

(** *** pg-promise *)

(** The driver sends one statement: without a pending fault the engine
    executes it and its outcome is the call's; a fault rejects the call,
    before the statement has reached the table or after it has run. *)
Definition query (q : Statement) (w : World) : World * (DbError + Result) :=
  let log := issued w ++ [q] in
  match faults w with
  | Some (before_statement e) :: later =>
      (mkWorld (table w) later log (console w), inl e)
  | Some (after_statement e) :: later =>
      (mkWorld (execute q (table w)).1 later log (console w), inl e)
  | _ =>
      let '(t, outcome) := execute q (table w) in
      (mkWorld t (tail (faults w)) log (console w), outcome)
  end.

(** [db.any]: whatever rows there are. *)
Definition db_any (q : Statement) (w : World) : World * (DbError + list Row.t) :=
  match query q w with
  | (w', inl e) => (w', inl e)
  | (w', inr result) => (w', inr (rows result))
  end.

(** [db.oneOrNone]: no row resolves with null, one row with the row,
    more reject. *)
Definition db_oneOrNone (q : Statement) (w : World) : World * (DbError + option Row.t) :=
  match query q w with
  | (w', inl e) => (w', inl e)
  | (w', inr result) =>
      match rows result with
      | [] => (w', inr None)
      | [r] => (w', inr (Some r))
      | _ => (w', inl (QueryResultError multiple))
      end
  end.

(** [db.one]: exactly one row, anything else rejects. *)
Definition db_one (q : Statement) (w : World) : World * (DbError + Row.t) :=
  match query q w with
  | (w', inl e) => (w', inl e)
  | (w', inr result) =>
      match rows result with
      | [] => (w', inl (QueryResultError noData))
      | [r] => (w', inr r)
      | _ => (w', inl (QueryResultError multiple))
      end
  end.

(** [db.result]: the result object itself. *)
Definition db_result (q : Statement) (w : World) : World * (DbError + Result) :=
  query q w.

(** *** The handlers *)

(** router.get("/") *)
Definition router_get (req : Request) (w : World) : World * Response :=
  match db_any SelectAll w with
  | (w', inr data) => (w', res_json (row_array data))
  | (w', inl error) =>
      (console_error "Error fetching data:" error w',
       res_status_json 500 (message_object "Error fetching data"))
  end.

(** router.get("/:id") *)
Definition router_get_id (req : Request) (w : World) : World * Response :=
  let id := params_id req in
  match db_oneOrNone (SelectById id) w with
  | (w', inr data) =>
      match data with
      | Some r => (w', res_json (row r))
      | None => (w', res_status_json 404 (message_object "Record not found"))
      end
  | (w', inl error) =>
      (console_error "Error fetching data:" error w',
       res_status_json 500 (message_object "Error fetching data"))
  end.

(** router.post("/") *)
Definition router_post (req : Request) (w : World) : World * Response :=
  let roomName := prop (body req) "roomName" in
  let roomVolume := prop (body req) "roomVolume" in
  let airflowRate := prop (body req) "airflowRate" in
  let ach := prop (body req) "ach" in
  if negb (truthy roomName) || negb (truthy roomVolume)
     || negb (truthy airflowRate) || negb (truthy ach)
  then (w, res_status_json 400 (message_object "All fields are required"))
  else
    match db_one (Insert roomName roomVolume airflowRate ach) w with
    | (w', inr newEntry) => (w', res_status_json 201 (row newEntry))
    | (w', inl error) =>
        (console_error "Error submitting data:" error w',
         res_status_json 500 (message_object "Error submitting data"))
    end.

(** router.put("/:id") *)
Definition router_put_id (req : Request) (w : World) : World * Response :=
  let id := params_id req in
  let roomName := prop (body req) "roomName" in
  let roomVolume := prop (body req) "roomVolume" in
  let airflowRate := prop (body req) "airflowRate" in
  let ach := prop (body req) "ach" in
  if negb (truthy roomName) || negb (truthy roomVolume)
     || negb (truthy airflowRate) || negb (truthy ach)
  then (w, res_status_json 400 (message_object "All fields are required"))
  else
    match db_one (Update roomName roomVolume airflowRate ach id) w with
    | (w', inr updatedEntry) => (w', res_json (row updatedEntry))
    | (w', inl error) =>
        (console_error "Error updating data:" error w',
         res_status_json 500 (message_object "Error updating data"))
    end.

(** router.delete("/:id") *)
Definition router_delete_id (req : Request) (w : World) : World * Response :=
  let id := params_id req in
  match db_result (DeleteById id) w with
  | (w', inr result) =>
      if (0 <? rowCount result)%nat
      then (w', res_status_send 204)
      else (w', res_status_json 404 (message_object "Record not found"))
  | (w', inl error) =>
      (console_error "Error deleting data:" error w',
       res_status_json 500 (message_object "Error deleting data"))
  end.

(** The routes the router registers, and its dispatch. *)
Inductive Route : Type := GET_root | GET_id | POST_root | PUT_id | DELETE_id.

Definition router (r : Route) : Request → World → World * Response :=
  match r with
  | GET_root => router_get
  | GET_id => router_get_id
  | POST_root => router_post
  | PUT_id => router_put_id
  | DELETE_id => router_delete_id
  end.
End Routes.

(** ** A small engine and some databases, for running the model *)

Fixpoint digits (s : string) (acc : Z) : option Z :=
  match s with
  | EmptyString => Some acc
  | String c s' =>
      let n := Z.of_nat (Ascii.nat_of_ascii c) in
      if (48 <=? n) && (n <=? 57) then digits s' (10 * acc + (n - 48)) else None
  end.

(** Reads an unsigned decimal numeral, refuses anything else. *)
Definition decimal (s : string) : option Z :=
  match s with EmptyString => None | _ => digits s 0 end.

Definition datatype_mismatch : DbError := DatabaseError "42804".

(** An engine that reads an id as an unsigned decimal numeral, keeps a
    string bound to [room_name] and a number bound to a number column as
    they are, and reads an unsigned decimal numeral in a string bound to a
    number column as that number. Whatever else it is given it refuses,
    where an engine at large may read more. It is used below at the
    values of Lab A and Lab B only. *)
Definition small_engine : Engine := {|
  id_of_text := decimal;
  text_of_value v :=
    match v with
    | JStr s => inr s
    | _ => inl datatype_mismatch
    end;
  number_of_value v :=
    match v with
    | JNum x => inr x
    | JStr s =>
        match decimal s with
        | Some n => inr (number_of_Z n)
        | None => inl invalid_text_representation
        end
    | _ => inl datatype_mismatch
    end
|}.

Definition empty_world : World := mkWorld (mkTable [] 1) [] [] [].

(** { roomName: "Lab A", roomVolume: 100, airflowRate: 2000, ach: 20 } *)
Definition lab_a : gmap string JsVal :=
  <["roomName" := JStr "Lab A"]>
  (<["roomVolume" := JNum (number_of_Z 100)]>
  (<["airflowRate" := JNum (number_of_Z 2000)]>
  (<["ach" := JNum (number_of_Z 20)]> ∅))).

(** The same room with its air changes given as 0. *)
Definition lab_a_still : gmap string JsVal :=
  <["ach" := JNum (S754_zero false)]> lab_a.

(** The same room with its volume given as the string "100". *)
Definition lab_a_text : gmap string JsVal :=
  <["roomVolume" := JStr "100"]> lab_a.

(** { roomName: "Lab B", roomVolume: 100, airflowRate: 1000, ach: 10 } *)
Definition lab_b : gmap string JsVal :=
  <["roomName" := JStr "Lab B"]>
  (<["roomVolume" := JNum (number_of_Z 100)]>
  (<["airflowRate" := JNum (number_of_Z 1000)]>
  (<["ach" := JNum (number_of_Z 10)]> ∅))).

(** Lab B with its volume given as the string "100". *)
Definition lab_b_text : gmap string JsVal :=
  <["roomVolume" := JStr "100"]> lab_b.

Definition lab_a_fields : Fields :=
  mkFields "Lab A" (number_of_Z 100) (number_of_Z 2000) (number_of_Z 20).

Definition lab_b_fields : Fields :=
  mkFields "Lab B" (number_of_Z 100) (number_of_Z 1000) (number_of_Z 10).

Definition lab_row : Row.t := with_id 1 lab_a_fields.

(** { roomName: "Store", roomVolume: 30, airflowRate: 60, ach: 2 }, stored
    under id 2. *)
Definition store_fields : Fields :=
  mkFields "Store" (number_of_Z 30) (number_of_Z 60) (number_of_Z 2).

Definition store_row : Row.t := with_id 2 store_fields.

(** The database after Lab A has been created in the empty one. *)
Definition lab_world : World := mkWorld (mkTable [lab_row] 2) [] [] [].

(** The database holding Lab A and the store. *)
Definition two_rooms : World := mkWorld (mkTable [lab_row; store_row] 3) [] [] [].

(** Two worlds whose driver is about to fail, each in its own way: the
    first cannot reach the engine, the second loses it after the
    statement has run. *)
Definition unreachable_world : World :=
  mkWorld (mkTable [lab_row] 2) [Some (before_statement (ConnectionError "ECONNREFUSED"))] [] [].

Definition shutdown_world : World :=
  mkWorld (mkTable [] 1) [Some (after_statement (DatabaseError "57P01"))] [] [].

(** Lab A sent with an id of the client's own choosing. *)
Definition lab_a_with_id : gmap string JsVal :=
  <["id" := JNum (number_of_Z 99)]> lab_a.

(** Lab A is created and deleted, then Lab B is created. *)
Definition lab_history : list (Route * Request) :=
  [(POST_root, mkRequest "" lab_a); (DELETE_id, mkRequest "1" ∅);
   (POST_root, mkRequest "" lab_b)].

(** ** Vocabulary of the statements below *)

(** The four properties both write handlers require of the body. *)
Definition required_fields : list string :=
  ["roomName"; "roomVolume"; "airflowRate"; "ach"].

Definition valid_body (b : gmap string JsVal) : bool :=
  truthy (prop b "roomName") && truthy (prop b "roomVolume")
  && truthy (prop b "airflowRate") && truthy (prop b "ach").

(** A property that is omitted, null, the empty string or a zero. *)
Inductive absent_or_empty : option JsVal → Prop :=
| field_omitted : absent_or_empty None
| field_null : absent_or_empty (Some JNull)
| field_empty_string : absent_or_empty (Some (JStr ""))
| field_zero (negative : bool) : absent_or_empty (Some (JNum (S754_zero negative))).

Definition bad_request : Response :=
  mkResponse 400 (Some (message_object "All fields are required")).

Definition not_found : Response :=
  mkResponse 404 (Some (message_object "Record not found")).

Definition server_error (message : string) : Response :=
  mkResponse 500 (Some (message_object message)).

Definition success (r : Response) : bool := (200 <=? status r) && (status r <? 300).

(** The failure the driver raises on its next call, if one is pending. *)
Definition next_fault (w : World) : option DbError :=
  match faults w with
  | Some (before_statement e) :: _ | Some (after_statement e) :: _ => Some e
  | _ => None
  end.

(** The primary key and the sequence behind it: no id twice, and every id
    in use below the sequence's next value. *)
Definition unique_ids (t : Table) : Prop := NoDup (Row.id <$> ach_data t).

Definition consistent (t : Table) : Prop :=
  unique_ids t ∧ Forall (λ r, Row.id r < ach_data_id_seq t) (ach_data t).

(** The world after the driver has run [q] without a fault. *)
Definition after_query `{Engine} (q : Statement) (w : World) : World :=
  mkWorld (execute q (table w)).1 (tail (faults w)) (issued w ++ [q]) (console w).

(** The two strings of each route's catch block: the label it logs the
    error under and the message it answers with. *)
Definition error_label (r : Route) : string :=
  match r with
  | GET_root | GET_id => "Error fetching data:"
  | POST_root => "Error submitting data:"
  | PUT_id => "Error updating data:"
  | DELETE_id => "Error deleting data:"
  end.

Definition error_message (r : Route) : string :=
  match r with
  | GET_root | GET_id => "Error fetching data"
  | POST_root => "Error submitting data"
  | PUT_id => "Error updating data"
  | DELETE_id => "Error deleting data"
  end.

(** The route reaches its database call in [w] and the call rejects with
    [e], whether the driver, the engine or the row count is the cause. *)
Definition rejects `{Engine} (r : Route) (req : Request) (w : World) (e : DbError) : Prop :=
  match r with
  | GET_root => (db_any SelectAll w).2 = inl e
  | GET_id => (db_oneOrNone (SelectById (params_id req)) w).2 = inl e
  | POST_root =>
      valid_body (body req) = true
      ∧ (db_one (Insert (prop (body req) "roomName") (prop (body req) "roomVolume")
                        (prop (body req) "airflowRate") (prop (body req) "ach")) w).2 = inl e
  | PUT_id =>
      valid_body (body req) = true
      ∧ (db_one (Update (prop (body req) "roomName") (prop (body req) "roomVolume")
                        (prop (body req) "airflowRate") (prop (body req) "ach")
                        (params_id req)) w).2 = inl e
  | DELETE_id => (db_result (DeleteById (params_id req)) w).2 = inl e
  end.

(** The column names of [ach_data]. *)
Definition column_names : gset string :=
  {[ "id"; "room_name"; "room_volume"; "airflow_rate"; "ach" ]}.

(** [o] is a record of the response: its JSON body when that is a single
    object, an element of it when it is an array. *)
Definition returned_record (resp : Response) (o : gmap string JsVal) : Prop :=
  match to_json <$> sent resp with
  | Some (JObj o') => o = o'
  | Some (JArr l) => JObj o ∈ l
  | _ => False
  end.

(** Serving requests one after the other; the responses in order. *)
Fixpoint serve `{Engine} (calls : list (Route * Request)) (w : World) : World * list Response :=
  match calls with
  | [] => (w, [])
  | (r, req) :: rest =>
      let '(w', resp) := router r req w in
      let '(w'', resps) := serve rest w' in
      (w'', resp :: resps)
  end.

(** The records a client takes to exist after one more response, following
    the specification's lifecycle of a record: created by a create (201,
    with the new row), overwritten in place by an update (200, with the
    row as it now is), destroyed by a delete (204); nothing else changes
    what exists. *)
Definition acknowledge `{Engine} (known : list Row.t) (r : Route) (req : Request)
    (resp : Response) : list Row.t :=
  match r, status resp, sent resp with
  | POST_root, 201, Some (row created) => known ++ [created]
  | PUT_id, 200, Some (row updated) =>
      (λ k, if has_id (Row.id updated) k then updated else k) <$> known
  | DELETE_id, 204, None =>
      match id_of_text (params_id req) with
      | Some i => List.filter (λ k, negb (has_id i k)) known
      | None => known
      end
  | _, _, _ => known
  end.

Fixpoint ledger `{Engine} (known : list Row.t) (calls : list (Route * Request))
    (resps : list Response) : list Row.t :=
  match calls, resps with
  | (r, req) :: calls', resp :: resps' => ledger (acknowledge known r req resp) calls' resps'
  | _, _ => known
  end.

(** The four values of a body as the columns take them. *)
Definition bound `{Engine} (b : gmap string JsVal) : DbError + Fields :=
  bind (prop b "roomName") (prop b "roomVolume") (prop b "airflowRate") (prop b "ach").

(** The body holds just what the columns hold: a string for the name and
    a number for each of the other three, read by the engine as they are. *)
Definition as_bound (b : gmap string JsVal) (v : Fields) : Prop :=
  prop b "roomName" = JStr (name v)
  ∧ prop b "roomVolume" = JNum (volume v)
  ∧ prop b "airflowRate" = JNum (rate v)
  ∧ prop b "ach" = JNum (changes v).

(** The rows a response shows. *)
Definition returned_rows (resp : Response) : list Row.t :=
  match sent resp with
  | Some (row r) => [r]
  | Some (row_array data) => data
  | _ => []
  end.

(** A statement that binds only truthy values to the business columns,
    and a row that holds what the engine made of four truthy values. *)
Definition validated (q : Statement) : bool :=
  match q with
  | Insert a b c d | Update a b c d _ => truthy a && truthy b && truthy c && truthy d
  | _ => true
  end.

Definition from_truthy_values `{Engine} (r : Row.t) : Prop :=
  ∃ a b c d v,
    truthy a && truthy b && truthy c && truthy d = true
    ∧ bind a b c d = inr v
    ∧ r = with_id (Row.id r) v.

(** ** Vocabulary of the further properties *)

(** The values [!v] holds of: undefined, null, false, the two zeros, NaN
    and the empty string. *)
Inductive falsy : JsVal → Prop :=
| falsy_undefined : falsy JUndefined
| falsy_null : falsy JNull
| falsy_false : falsy (JBool false)
| falsy_zero (negative : bool) : falsy (JNum (S754_zero negative))
| falsy_nan : falsy (JNum S754_nan)
| falsy_empty_string : falsy (JStr "").

(** The statement a route hands to the driver, if it gets that far. *)
Definition statement_of (r : Route) (req : Request) : option Statement :=
  match r with
  | GET_root => Some SelectAll
  | GET_id => Some (SelectById (params_id req))
  | POST_root =>
      if valid_body (body req)
      then Some (Insert (prop (body req) "roomName") (prop (body req) "roomVolume")
                        (prop (body req) "airflowRate") (prop (body req) "ach"))
      else None
  | PUT_id =>
      if valid_body (body req)
      then Some (Update (prop (body req) "roomName") (prop (body req) "roomVolume")
                        (prop (body req) "airflowRate") (prop (body req) "ach")
                        (params_id req))
      else None
  | DELETE_id => Some (DeleteById (params_id req))
  end.

(** The status codes found in the branches of each handler. *)
Definition statuses (r : Route) : list Z :=
  match r with
  | GET_root => [200; 500]
  | GET_id => [200; 404; 500]
  | POST_root => [201; 400; 500]
  | PUT_id => [200; 400; 500]
  | DELETE_id => [204; 404; 500]
  end.

(** The id a 201 response shows, and the ids a run of responses shows. *)
Definition created_id (resp : Response) : option Z :=
  match sent resp with
  | Some (row r) => if status resp =? 201 then Some (Row.id r) else None
  | _ => None
  end.

Definition created_ids (resps : list Response) : list Z := omap created_id resps.

(** ** The driver *)

Section Driver.
Context `{Engine}.

Lemma query_run q w :
  next_fault w = None →
  query q w = (after_query q w, (execute q (table w)).2).
Proof.
  unfold next_fault, query, after_query.
  destruct (faults w) as [|[[e'|e']|] later]; try discriminate; intros _;
    destruct (execute q (table w)); reflexivity.
Qed.

(** A pending fault rejects the call; the table is as it was, or as the
    statement left it. *)
Lemma query_fault q w e :
  next_fault w = Some e →
  ∃ t, (t = table w ∨ t = (execute q (table w)).1)
       ∧ query q w = (mkWorld t (tail (faults w)) (issued w ++ [q]) (console w), inl e).
Proof.
  unfold next_fault, query. destruct (faults w) as [|[[e'|e']|] later]; try discriminate;
    intros [= ->]; eexists; (split; [|reflexivity]); auto.
Qed.

(** A call either meets a pending fault or runs the statement. *)
Lemma query_cases q w :
  (∃ e t, next_fault w = Some e
          ∧ (t = table w ∨ t = (execute q (table w)).1)
          ∧ query q w = (mkWorld t (tail (faults w)) (issued w ++ [q]) (console w), inl e))
  ∨ (next_fault w = None ∧ query q w = (after_query q w, (execute q (table w)).2)).
Proof.
  destruct (next_fault w) as [e|] eqn:E.
  - left. destruct (query_fault q w e E) as (t & Ht & Hq). by exists e, t.
  - right. split; [done | by apply query_run].
Qed.

Lemma query_table q w :
  table (query q w).1 = table w ∨ table (query q w).1 = (execute q (table w)).1.
Proof.
  destruct (query_cases q w) as [(e & t & _ & [-> | ->] & ->)|[_ ->]]; auto.
Qed.

Lemma query_rejected q w e :
  next_fault w = Some e → (query q w).2 = inl e.
Proof. intros Hf. by destruct (query_fault q w e Hf) as (t & _ & ->). Qed.

Lemma query_console q w : console (query q w).1 = console w.
Proof. by destruct (query_cases q w) as [(e & t & _ & _ & ->)|[_ ->]]. Qed.

Lemma query_issued q w : issued (query q w).1 = issued w ++ [q].
Proof. by destruct (query_cases q w) as [(e & t & _ & _ & ->)|[_ ->]]. Qed.
End Driver.

(** ** Validation *)

Section Validation.
Context `{Engine}.

Lemma absent_or_empty_falsy (b : gmap string JsVal) k :
  absent_or_empty (b !! k) → truthy (prop b k) = false.
Proof. unfold prop. intros Hk. inversion Hk as [E|E|E|s E]; reflexivity. Qed.

Lemma invalid_body (b : gmap string JsVal) k :
  k ∈ required_fields → absent_or_empty (b !! k) → valid_body b = false.
Proof.
  intros Hin Hk. apply absent_or_empty_falsy in Hk. unfold valid_body.
  unfold required_fields in Hin.
  repeat (apply elem_of_cons in Hin as [->|Hin]; [rewrite Hk; by rewrite ?andb_false_r |]).
  by apply elem_of_nil in Hin.
Qed.

Lemma router_post_invalid req w :
  valid_body (body req) = false → router_post req w = (w, bad_request).
Proof.
  unfold router_post, valid_body. intros Hv.
  destruct (truthy (prop (body req) "roomName")),
    (truthy (prop (body req) "roomVolume")),
    (truthy (prop (body req) "airflowRate")),
    (truthy (prop (body req) "ach")); try discriminate; reflexivity.
Qed.

Lemma router_put_id_invalid req w :
  valid_body (body req) = false → router_put_id req w = (w, bad_request).
Proof.
  unfold router_put_id, valid_body. intros Hv.
  destruct (truthy (prop (body req) "roomName")),
    (truthy (prop (body req) "roomVolume")),
    (truthy (prop (body req) "airflowRate")),
    (truthy (prop (body req) "ach")); try discriminate; reflexivity.
Qed.

Lemma router_post_valid req w :
  valid_body (body req) = true →
  router_post req w =
    match db_one (Insert (prop (body req) "roomName") (prop (body req) "roomVolume")
                         (prop (body req) "airflowRate") (prop (body req) "ach")) w with
    | (w', inr newEntry) => (w', res_status_json 201 (row newEntry))
    | (w', inl error) =>
        (console_error "Error submitting data:" error w', server_error "Error submitting data")
    end.
Proof.
  unfold router_post, valid_body. intros Hv.
  destruct (truthy (prop (body req) "roomName")),
    (truthy (prop (body req) "roomVolume")),
    (truthy (prop (body req) "airflowRate")),
    (truthy (prop (body req) "ach")); try discriminate; reflexivity.
Qed.

Lemma router_put_id_valid req w :
  valid_body (body req) = true →
  router_put_id req w =
    match db_one (Update (prop (body req) "roomName") (prop (body req) "roomVolume")
                         (prop (body req) "airflowRate") (prop (body req) "ach")
                         (params_id req)) w with
    | (w', inr updatedEntry) => (w', res_json (row updatedEntry))
    | (w', inl error) =>
        (console_error "Error updating data:" error w', server_error "Error updating data")
    end.
Proof.
  unfold router_put_id, valid_body. intros Hv.
  destruct (truthy (prop (body req) "roomName")),
    (truthy (prop (body req) "roomVolume")),
    (truthy (prop (body req) "airflowRate")),
    (truthy (prop (body req) "ach")); try discriminate; reflexivity.
Qed.

(** C2: a create or an update whose body omits one of the four fields,
    or gives it as null, the empty string or zero, is answered with the
    400 response and its fixed message, which is not a success. *)
Theorem falsy_field_is_bad_request req w k :
  k ∈ required_fields →
  absent_or_empty (body req !! k) →
  (router_post req w).2 = bad_request ∧ (router_put_id req w).2 = bad_request
  ∧ success bad_request = false.
Proof.
  intros Hin Hk. pose proof (invalid_body _ _ Hin Hk) as Hv.
  rewrite router_post_invalid, router_put_id_invalid by done. done.
Qed.

(** C9: a request answered with 400 leaves the world as it was: the
    table, the pending faults and the console are unchanged and no
    statement has been handed to the driver. *)
Theorem bad_request_touches_nothing (r : Route) req w :
  status (router r req w).2 = 400 →
  (router r req w).1 = w ∧ issued (router r req w).1 = issued w.
Proof.
  intros Hs. assert ((router r req w).1 = w) as ->; [|done].
  revert Hs. destruct r; simpl.
  - unfold router_get. destruct (db_any _ _) as [w' [e|d]]; discriminate.
  - unfold router_get_id. destruct (db_oneOrNone _ _) as [w' [e|[d|]]]; discriminate.
  - destruct (valid_body (body req)) eqn:Hv.
    + rewrite router_post_valid by done.
      destruct (db_one _ _) as [w' [e|d]]; discriminate.
    + rewrite router_post_invalid by done. done.
  - destruct (valid_body (body req)) eqn:Hv.
    + rewrite router_put_id_valid by done.
      destruct (db_one _ _) as [w' [e|d]]; discriminate.
    + rewrite router_put_id_invalid by done. done.
  - unfold router_delete_id. destruct (db_result _ _) as [w' [e|d]]; [discriminate|].
    destruct (0 <? rowCount d)%nat; discriminate.
Qed.
End Validation.

(** ** Rows selected by id *)

Section Selection.
Implicit Types (l : list Row.t) (r : Row.t) (i : Z).

Lemma has_id_true i r : has_id i r = true ↔ Row.id r = i.
Proof. unfold has_id. apply Z.eqb_eq. Qed.

Lemma has_id_false i r : has_id i r = false ↔ Row.id r ≠ i.
Proof. unfold has_id. apply Z.eqb_neq. Qed.

Lemma select_none l i :
  (∀ r, r ∈ l → Row.id r ≠ i) → List.filter (has_id i) l = [].
Proof.
  induction l as [|r l IH]; intros Hl; [done|]. simpl.
  assert (has_id i r = false) as -> by (apply has_id_false, Hl; left).
  apply IH. intros r' Hr'. apply Hl. by right.
Qed.

Lemma select_some l i r :
  r ∈ l → Row.id r = i → List.filter (has_id i) l ≠ [].
Proof.
  intros Hr Hi Hnil.
  assert (In r (List.filter (has_id i) l)) as Hin.
  { apply filter_In. split; [by apply list_elem_of_In | by apply has_id_true]. }
  rewrite Hnil in Hin. destruct Hin.
Qed.

Lemma select_unique l r :
  NoDup (Row.id <$> l) → r ∈ l → List.filter (has_id (Row.id r)) l = [r].
Proof.
  induction l as [|r' l IH]; intros Hnd Hr; [by apply elem_of_nil in Hr|].
  rewrite fmap_cons in Hnd. apply NoDup_cons in Hnd as [Hnotin Hnd].
  simpl. apply elem_of_cons in Hr as [->|Hr].
  - assert (has_id (Row.id r') r' = true) as -> by by apply has_id_true.
    f_equal. apply select_none. intros r Hr Heq. apply Hnotin.
    rewrite <- Heq. by apply list_elem_of_fmap_2.
  - assert (has_id (Row.id r) r' = false) as ->; [|by apply IH].
    apply has_id_false. intros Heq. apply Hnotin. rewrite Heq.
    by apply list_elem_of_fmap_2.
Qed.

Lemma rewrite_none l i (f : Row.t → Row.t) :
  (∀ r, r ∈ l → Row.id r ≠ i) → (λ r, if has_id i r then f r else r) <$> l = l.
Proof.
  induction l as [|r l IH]; intros Hl; [done|]. rewrite fmap_cons.
  assert (has_id i r = false) as -> by (apply has_id_false, Hl; left).
  f_equal. apply IH. intros r' Hr'. apply Hl. by right.
Qed.

Lemma rewrite_keeps_ids l i (v : Fields) :
  Row.id <$> ((λ r, if has_id i r then set_fields v r else r) <$> l) = Row.id <$> l.
Proof.
  rewrite <- list_fmap_compose. apply list_fmap_ext. intros _ r _. simpl.
  by destruct (has_id i r).
Qed.

Lemma remove_leaves_none l i r :
  r ∈ List.filter (λ r, negb (has_id i r)) l → Row.id r ≠ i.
Proof.
  intros Hr. apply list_elem_of_In, filter_In in Hr as [_ Hr].
  apply has_id_false. by destruct (has_id i r).
Qed.

Lemma remove_none l i :
  (∀ r, r ∈ l → Row.id r ≠ i) → List.filter (λ r, negb (has_id i r)) l = l.
Proof.
  induction l as [|r l IH]; intros Hl; [done|]. simpl.
  assert (has_id i r = false) as -> by (apply has_id_false, Hl; left).
  simpl. f_equal. apply IH. intros r' Hr'. apply Hl. by right.
Qed.
Lemma filter_keeps_unique l (f : Row.t → bool) :
  NoDup (Row.id <$> l) → NoDup (Row.id <$> List.filter f l).
Proof.
  induction l as [|r l IH]; [done|]. rewrite fmap_cons, NoDup_cons.
  intros [Hnotin Hnd]. simpl. destruct (f r); [|by apply IH].
  rewrite fmap_cons. apply NoDup_cons. split; [|by apply IH].
  intros (r' & Heq & Hr')%list_elem_of_fmap. apply Hnotin.
  apply list_elem_of_In, filter_In in Hr' as [Hr' _].
  rewrite Heq. by apply list_elem_of_fmap_2, list_elem_of_In.
Qed.
End Selection.

(** ** Reading *)

Section Reading.
Context `{Engine}.

Lemma router_get_run req w :
  next_fault w = None →
  router_get req w = (after_query SelectAll w, res_json (row_array (ach_data (table w)))).
Proof.
  intros Hf. unfold router_get, db_any. rewrite query_run by done. reflexivity.
Qed.

Lemma router_get_id_run req w i :
  next_fault w = None →
  id_of_text (params_id req) = Some i →
  router_get_id req w =
    let w' := after_query (SelectById (params_id req)) w in
    match List.filter (has_id i) (ach_data (table w)) with
    | [] => (w', not_found)
    | [r] => (w', res_json (row r))
    | _ => (console_error "Error fetching data:" (QueryResultError multiple) w',
            server_error "Error fetching data")
    end.
Proof.
  intros Hf Hi. unfold router_get_id, db_oneOrNone. rewrite query_run by done.
  simpl. rewrite Hi. simpl.
  destruct (List.filter (has_id i) (ach_data (table w))) as [|r [|r' l]]; reflexivity.
Qed.

(** C5: when the statement runs and the engine reads the path identifier
    as the id [i], a stored row with that id is returned with status 200,
    and when no stored row has that id the response is the 404 one. *)
Theorem get_by_id_found_or_404 req w i :
  next_fault w = None →
  id_of_text (params_id req) = Some i →
  unique_ids (table w) →
  (∀ r, r ∈ ach_data (table w) → Row.id r = i →
        (router_get_id req w).2 = mkResponse 200 (Some (row r)))
  ∧ ((∀ r, r ∈ ach_data (table w) → Row.id r ≠ i) →
        (router_get_id req w).2 = not_found).
Proof.
  intros Hf Hi Hu. rewrite (router_get_id_run _ _ i) by done. split.
  - intros r Hr <-. by rewrite select_unique.
  - intros Hnone. by rewrite select_none.
Qed.

(** C7: when the statement runs, the list route answers 200 with the
    stored rows and nothing else, each of them once, every one under its
    four business columns, and leaves the table as it was. *)
Theorem list_returns_every_row_once req w :
  next_fault w = None →
  unique_ids (table w) →
  ∃ data,
    (router_get req w).2 = mkResponse 200 (Some (row_array data))
    ∧ table (router_get req w).1 = table w
    ∧ (∀ r, r ∈ data ↔ r ∈ ach_data (table w))
    ∧ NoDup data
    ∧ Forall (λ r, row_object r !! "room_name" = Some (JStr (Row.room_name r))
                   ∧ row_object r !! "room_volume" = Some (JNum (Row.room_volume r))
                   ∧ row_object r !! "airflow_rate" = Some (JNum (Row.airflow_rate r))
                   ∧ row_object r !! "ach" = Some (JNum (Row.ach r))) data.
Proof.
  intros Hf Hu. exists (ach_data (table w)). rewrite router_get_run by done.
  simpl. destruct (table w) as [l s]; simpl. repeat split; try done.
  - by apply (NoDup_fmap_1 Row.id).
  - apply Forall_forall. intros r _. unfold row_object. by simplify_map_eq.
Qed.
End Reading.

(** ** Writing *)

Section Writing.
Context `{Engine}.

Lemma router_delete_id_run req w i :
  next_fault w = None →
  id_of_text (params_id req) = Some i →
  router_delete_id req w =
    (after_query (DeleteById (params_id req)) w,
     match List.filter (has_id i) (ach_data (table w)) with
     | [] => not_found
     | _ => res_status_send 204
     end).
Proof.
  intros Hf Hi. unfold router_delete_id, db_result. rewrite query_run by done.
  simpl. rewrite Hi. simpl.
  by destruct (List.filter (has_id i) (ach_data (table w))).
Qed.

(** C4: when the statement runs and the engine reads the path identifier
    as the id [i], the rows with that id are gone from the table and the
    others stay; the response is 204 without a body if there was such a
    row, and the 404 one if there was none. *)
Theorem delete_removed_or_404 req w i :
  next_fault w = None →
  id_of_text (params_id req) = Some i →
  ach_data (table (router_delete_id req w).1)
    = List.filter (λ r, negb (has_id i r)) (ach_data (table w))
  ∧ (∀ r, r ∈ ach_data (table (router_delete_id req w).1) → Row.id r ≠ i)
  ∧ ((∃ r, r ∈ ach_data (table w) ∧ Row.id r = i) →
        (router_delete_id req w).2 = mkResponse 204 None)
  ∧ ((∀ r, r ∈ ach_data (table w) → Row.id r ≠ i) →
        (router_delete_id req w).2 = not_found).
Proof.
  intros Hf Hi. rewrite (router_delete_id_run _ _ i) by done.
  unfold after_query. simpl. rewrite Hi. simpl. repeat split.
  - intros r. apply remove_leaves_none.
  - intros (r & Hr & Hri). pose proof (select_some _ _ _ Hr Hri).
    by destruct (List.filter (has_id i) (ach_data (table w))).
  - intros Hnone. by rewrite select_none.
Qed.

(** What [db.one] makes of an UPDATE whose values the engine takes. *)
Lemma update_one_run a b c d id w i v :
  next_fault w = None →
  id_of_text id = Some i →
  bind a b c d = inr v →
  db_one (Update a b c d id) w =
    let w' := after_query (Update a b c d id) w in
    match List.filter (has_id i) (ach_data (table w)) with
    | [] => (w', inl (QueryResultError noData))
    | [r] => (w', inr (set_fields v r))
    | _ => (w', inl (QueryResultError multiple))
    end.
Proof.
  intros Hf Hi Hv. unfold db_one. rewrite query_run by done. simpl.
  rewrite Hi, Hv. simpl.
  by destruct (List.filter (has_id i) (ach_data (table w))) as [|r [|r' l]].
Qed.

(** An UPDATE whose path identifier is the id of no stored row changes
    no row and returns none, if it returns at all. *)
Lemma update_misses a b c d id t :
  (∀ r, r ∈ ach_data t → id_of_text id ≠ Some (Row.id r)) →
  ach_data (execute (Update a b c d id) t).1 = ach_data t
  ∧ ((∃ e, (execute (Update a b c d id) t).2 = inl e)
     ∨ (execute (Update a b c d id) t).2 = inr (mkResult [] 0)).
Proof.
  intros Hnone. simpl. destruct (id_of_text id) as [i|] eqn:Hi; [|eauto].
  destruct (bind a b c d) as [e|v]; [eauto|]. simpl.
  assert (∀ r, r ∈ ach_data t → Row.id r ≠ i) as Hno.
  { intros r Hr Heq. apply (Hnone r Hr). by rewrite Heq. }
  rewrite rewrite_none, select_none by done. auto.
Qed.

(** C3: an update with a valid body whose path identifier is the id of
    no stored row is answered with the 500 response of the route, which
    is not the 404 one, and the stored rows stay as they were. *)
Theorem update_of_missing_row_is_server_error req w :
  valid_body (body req) = true →
  (∀ r, r ∈ ach_data (table w) → id_of_text (params_id req) ≠ Some (Row.id r)) →
  (router_put_id req w).2 = server_error "Error updating data"
  ∧ (router_put_id req w).2 ≠ not_found
  ∧ ach_data (table (router_put_id req w).1) = ach_data (table w).
Proof.
  intros Hv Hnone. rewrite router_put_id_valid by done.
  assert (server_error "Error updating data" ≠ not_found) as Hne by discriminate.
  match goal with |- context [db_one ?q w] =>
    destruct (update_misses (prop (body req) "roomName") (prop (body req) "roomVolume")
                (prop (body req) "airflowRate") (prop (body req) "ach")
                (params_id req) (table w) Hnone) as [Hrows Hout];
    unfold db_one;
    destruct (query_cases q w) as [(e & t & _ & Ht & ->)|[_ ->]];
    [|unfold after_query]; destruct (execute q (table w)) as [t' out]
  end; simpl in *.
  - repeat split; try done. by destruct Ht as [-> | ->].
  - by destruct Hout as [[e ->] | ->].
Qed.

(** On a table with unique ids, a valid update of a stored row whose
    values the engine takes and that meets no fault is answered with 200. *)
Lemma router_put_id_run req w i old v :
  valid_body (body req) = true →
  next_fault w = None →
  unique_ids (table w) →
  id_of_text (params_id req) = Some i →
  bound (body req) = inr v →
  old ∈ ach_data (table w) → Row.id old = i →
  (router_put_id req w).2 = mkResponse 200 (Some (row (with_id i v))).
Proof.
  intros Hv Hf Hu Hi Hb Hold <-. rewrite router_put_id_valid by done.
  rewrite (update_one_run _ _ _ _ _ _ (Row.id old) v) by done.
  by rewrite select_unique.
Qed.

(** What a 200 of the update route tells. *)
Lemma router_put_id_200 req w :
  status (router_put_id req w).2 = 200 →
  ∃ i old v,
    next_fault w = None
    ∧ valid_body (body req) = true
    ∧ id_of_text (params_id req) = Some i
    ∧ bound (body req) = inr v
    ∧ List.filter (has_id i) (ach_data (table w)) = [old]
    ∧ table (router_put_id req w).1
      = mkTable ((λ r, if has_id i r then set_fields v r else r) <$> ach_data (table w))
                (ach_data_id_seq (table w))
    ∧ router_put_id req w
      = (after_query (Update (prop (body req) "roomName") (prop (body req) "roomVolume")
                             (prop (body req) "airflowRate") (prop (body req) "ach")
                             (params_id req)) w,
         mkResponse 200 (Some (row (set_fields v old)))).
Proof.
  destruct (valid_body (body req)) eqn:Hv; [|by rewrite router_put_id_invalid].
  rewrite router_put_id_valid by done.
  destruct (next_fault w) as [e|] eqn:Hf.
  { unfold db_one. by destruct (query_fault
      (Update (prop (body req) "roomName") (prop (body req) "roomVolume")
              (prop (body req) "airflowRate") (prop (body req) "ach") (params_id req))
      w e Hf) as (t & _ & ->). }
  destruct (id_of_text (params_id req)) as [i|] eqn:Hi.
  2:{ unfold db_one. rewrite query_run by done. simpl. by rewrite Hi. }
  destruct (bound (body req)) as [e|v] eqn:Hb.
  { unfold db_one. rewrite query_run by done. simpl. unfold bound in Hb.
    by rewrite Hi, Hb. }
  rewrite (update_one_run _ _ _ _ _ _ i v) by done.
  destruct (List.filter (has_id i) (ach_data (table w))) as [|old [|r' l]] eqn:Hsel;
    try done.
  intros _. exists i, old, v. repeat (split; [done|]). split; [|done].
  unfold after_query. simpl. unfold bound in Hb. by rewrite Hi, Hb.
Qed.

Lemma selected_row (l : list Row.t) i r rest :
  List.filter (has_id i) l = r :: rest → r ∈ l ∧ Row.id r = i.
Proof.
  intros Hsel.
  assert (In r (List.filter (has_id i) l)) as Hin by (rewrite Hsel; by left).
  apply filter_In in Hin as [Hin Hid]. apply has_id_true in Hid.
  split; [by apply list_elem_of_In | done].
Qed.

(** C8: an update with a valid body of a stored row succeeds with 200
    whenever the engine takes its values and it meets no fault on a table
    with unique ids. Whenever an update is answered with 200, exactly one
    stored row has the id the engine reads from the path: that row keeps
    its id and carries the four request values as the engine reads them,
    which are the request values themselves when the body holds a string
    and three numbers that the engine keeps as they are; the response
    shows the row as it now is; every other row is as before, and so are
    the number of rows and the sequence. *)
Theorem update_overwrites_one_row req w :
  valid_body (body req) = true →
  (∀ old v, next_fault w = None → unique_ids (table w) →
            old ∈ ach_data (table w) →
            id_of_text (params_id req) = Some (Row.id old) →
            bound (body req) = inr v →
            status (router_put_id req w).2 = 200)
  ∧ (status (router_put_id req w).2 = 200 →
     ∃ i old v,
       id_of_text (params_id req) = Some i
       ∧ bound (body req) = inr v
       ∧ old ∈ ach_data (table w) ∧ Row.id old = i
       ∧ (∀ r, r ∈ ach_data (table w) → Row.id r = i → r = old)
       ∧ (router_put_id req w).2 = mkResponse 200 (Some (row (with_id i v)))
       ∧ with_id i v ∈ ach_data (table (router_put_id req w).1)
       ∧ (∀ r, r ∈ ach_data (table (router_put_id req w).1) → Row.id r = i →
               r = with_id i v)
       ∧ (∀ r, Row.id r ≠ i →
               r ∈ ach_data (table (router_put_id req w).1) ↔ r ∈ ach_data (table w))
       ∧ ach_data (table (router_put_id req w).1)
           ≡ₚ (λ r, if has_id i r then with_id i v else r) <$> ach_data (table w)
       ∧ ach_data_id_seq (table (router_put_id req w).1) = ach_data_id_seq (table w)
       ∧ (as_bound (body req) v →
            row_object (with_id i v) !! "room_name" = Some (prop (body req) "roomName")
            ∧ row_object (with_id i v) !! "room_volume" = Some (prop (body req) "roomVolume")
            ∧ row_object (with_id i v) !! "airflow_rate"
                = Some (prop (body req) "airflowRate")
            ∧ row_object (with_id i v) !! "ach" = Some (prop (body req) "ach"))).
Proof.
  intros Hv. split.
  { intros old v Hf Hu Hold Hi Hb.
    by rewrite (router_put_id_run _ _ (Row.id old) old v). }
  intros (i & old & v & Hf & _ & Hi & Hb & Hsel & _ & ->)%router_put_id_200.
  destruct (selected_row _ _ _ _ Hsel) as [Hold Hid].
  assert (set_fields v old = with_id i v) as Hset by (unfold set_fields; by rewrite Hid).
  assert (∀ r, (if has_id i r then set_fields v r else r)
               = (if has_id i r then with_id i v else r)) as Hupd.
  { intros r. destruct (has_id i r) eqn:Hr; [|done].
    apply has_id_true in Hr. unfold set_fields. by rewrite Hr. }
  exists i, old, v. unfold after_query. simpl. unfold bound in Hb. rewrite Hi, Hb. simpl.
  split; [done|]. split; [done|]. split; [done|]. split; [done|]. split.
  { intros r Hr Hri.
    assert (In r (List.filter (has_id i) (ach_data (table w)))) as Hin
      by (apply filter_In; split; [by apply list_elem_of_In | by apply has_id_true]).
    rewrite Hsel in Hin. by destruct Hin as [<-|[]]. }
  split; [by rewrite Hset|]. split.
  { apply list_elem_of_fmap. exists old. split; [|done].
    assert (has_id i old = true) as -> by by apply has_id_true. by rewrite Hset. }
  split.
  { intros r (r0 & -> & Hr0)%list_elem_of_fmap Hri.
    rewrite Hupd in *. destruct (has_id i r0) eqn:Hr; [done|].
    by apply has_id_false in Hr. }
  split.
  { intros r Hr. split.
    - intros (r0 & -> & Hr0)%list_elem_of_fmap.
      destruct (has_id i r0) eqn:Hr0i; [|done].
      apply has_id_true in Hr0i. unfold set_fields in Hr. simpl in Hr. done.
    - intros Hin. apply list_elem_of_fmap. exists r. split; [|done].
      assert (has_id i r = false) as -> by by apply has_id_false. done. }
  split.
  { erewrite list_fmap_ext; [reflexivity|]. intros _ r _. simpl. apply Hupd. }
  split; [done|].
  intros (Hn & Hvo & Hr & Hc). unfold row_object. simpl.
  rewrite Hn, Hvo, Hr, Hc. by simplify_map_eq.
Qed.
End Writing.

(** ** Creating, then reading back *)

Section Creating.
Context `{Engine}.

Lemma no_row_has_id (l : list Row.t) i :
  existsb (has_id i) l = false ↔ ∀ r, r ∈ l → Row.id r ≠ i.
Proof.
  induction l as [|r l IH]; simpl.
  - split; [|done]. intros _ r Hr. by apply elem_of_nil in Hr.
  - rewrite orb_false_iff, IH, has_id_false. split.
    + intros [Hr Hl] r' [->|Hr']%elem_of_cons; auto.
    + intros Hl. split; [apply Hl; left | intros r' Hr'; apply Hl; by right].
Qed.

(** What [db.one] makes of an INSERT whose values the engine takes. *)
Lemma insert_one_run a b c d w v :
  next_fault w = None →
  bind a b c d = inr v →
  db_one (Insert a b c d) w =
    (after_query (Insert a b c d) w,
     if existsb (has_id (ach_data_id_seq (table w))) (ach_data (table w))
     then inl unique_violation
     else inr (with_id (ach_data_id_seq (table w)) v)).
Proof.
  intros Hf Hv. unfold db_one. rewrite query_run by done. simpl. rewrite Hv.
  by destruct (existsb _ _).
Qed.

Lemma consistent_fresh t r :
  consistent t → r ∈ ach_data t → Row.id r ≠ ach_data_id_seq t.
Proof.
  intros [_ Hlt] Hr. rewrite Forall_forall in Hlt. specialize (Hlt r Hr). lia.
Qed.

(** On a consistent table, a valid create whose values the engine takes
    and that meets no fault succeeds with the next value of the sequence
    as its id. *)
Lemma router_post_run req w v :
  valid_body (body req) = true →
  next_fault w = None →
  consistent (table w) →
  bound (body req) = inr v →
  (router_post req w).2
    = mkResponse 201 (Some (row (with_id (ach_data_id_seq (table w)) v))).
Proof.
  intros Hv Hf Hc Hb. rewrite router_post_valid by done.
  rewrite (insert_one_run _ _ _ _ _ v) by done.
  assert (existsb (has_id (ach_data_id_seq (table w))) (ach_data (table w)) = false)
    as -> by (apply no_row_has_id; intros r; by apply consistent_fresh).
  reflexivity.
Qed.

(** What a 201 of the create route tells. *)
Lemma router_post_201 req w :
  status (router_post req w).2 = 201 →
  ∃ v,
    next_fault w = None
    ∧ valid_body (body req) = true
    ∧ bound (body req) = inr v
    ∧ (∀ r, r ∈ ach_data (table w) → Row.id r ≠ ach_data_id_seq (table w))
    ∧ table (router_post req w).1
      = mkTable (ach_data (table w) ++ [with_id (ach_data_id_seq (table w)) v])
                (ach_data_id_seq (table w) + 1)
    ∧ router_post req w
      = (after_query (Insert (prop (body req) "roomName") (prop (body req) "roomVolume")
                             (prop (body req) "airflowRate") (prop (body req) "ach")) w,
         mkResponse 201 (Some (row (with_id (ach_data_id_seq (table w)) v)))).
Proof.
  destruct (valid_body (body req)) eqn:Hv; [|by rewrite router_post_invalid].
  rewrite router_post_valid by done.
  destruct (next_fault w) as [e|] eqn:Hf.
  { unfold db_one. by destruct (query_fault
      (Insert (prop (body req) "roomName") (prop (body req) "roomVolume")
              (prop (body req) "airflowRate") (prop (body req) "ach"))
      w e Hf) as (t & _ & ->). }
  destruct (bound (body req)) as [e|v] eqn:Hb.
  { unfold db_one. rewrite query_run by done. simpl. unfold bound in Hb.
    by rewrite Hb. }
  rewrite (insert_one_run _ _ _ _ _ v) by done.
  destruct (existsb _ _) eqn:Hfree; [done|]. intros _.
  exists v. split; [done|]. split; [done|]. split; [done|].
  split; [by apply no_row_has_id|]. split; [|done].
  unfold after_query. simpl. unfold bound in Hb. by rewrite Hb, Hfree.
Qed.

(** C1: a create with a valid body succeeds with 201 whenever the engine
    takes its values and it meets no fault on a consistent table. Whenever
    it is answered with 201, the returned row carries an id no stored row
    had before and the four request values as the engine reads them, which
    are the request values themselves when the body holds a string and
    three numbers that the engine keeps as they are; and a get-by-id whose
    path identifier the engine reads as that id, run next and meeting no
    fault, is answered with 200 and the same row. *)
Theorem create_then_get req w :
  valid_body (body req) = true →
  (∀ v, next_fault w = None → consistent (table w) → bound (body req) = inr v →
        status (router_post req w).2 = 201)
  ∧ (status (router_post req w).2 = 201 →
     ∃ v created,
       bound (body req) = inr v
       ∧ created = with_id (Row.id created) v
       ∧ (router_post req w).2 = mkResponse 201 (Some (row created))
       ∧ (∀ r, r ∈ ach_data (table w) → Row.id r ≠ Row.id created)
       ∧ (∀ req',
            id_of_text (params_id req') = Some (Row.id created) →
            next_fault (router_post req w).1 = None →
            (router_get_id req' (router_post req w).1).2
              = mkResponse 200 (Some (row created)))
       ∧ (as_bound (body req) v →
            row_object created !! "room_name" = Some (prop (body req) "roomName")
            ∧ row_object created !! "room_volume" = Some (prop (body req) "roomVolume")
            ∧ row_object created !! "airflow_rate" = Some (prop (body req) "airflowRate")
            ∧ row_object created !! "ach" = Some (prop (body req) "ach"))).
Proof.
  intros Hv. split.
  { intros v Hf Hc Hb. by rewrite (router_post_run _ _ v). }
  intros (v & Hf & _ & Hb & Hfree & _ & ->)%router_post_201.
  exists v, (with_id (ach_data_id_seq (table w)) v).
  split; [done|]. split; [done|]. split; [done|]. split; [done|]. split.
  - intros req' Hi Hf'. simpl in Hi.
    rewrite (router_get_id_run _ _ (ach_data_id_seq (table w))) by done.
    unfold after_query. simpl. unfold bound in Hb. rewrite Hb.
    assert (existsb (has_id (ach_data_id_seq (table w))) (ach_data (table w)) = false)
      as -> by by apply no_row_has_id.
    simpl. rewrite List.filter_app, select_none by done. simpl.
    assert (has_id (ach_data_id_seq (table w)) (with_id (ach_data_id_seq (table w)) v)
            = true) as -> by by apply has_id_true.
    reflexivity.
  - intros (Hn & Hvo & Hr & Hc). unfold row_object. simpl.
    rewrite Hn, Hvo, Hr, Hc. by simplify_map_eq.
Qed.
End Creating.

(** ** The primary key is kept *)

Section Consistency.
Context `{Engine}.

Lemma execute_consistent q t : consistent t → consistent (execute q t).1.
Proof.
  intros [Hu Hlt]. unfold consistent, unique_ids in *.
  destruct q as [|id|a b c d|a b c d id|id]; simpl.
  - done.
  - by destruct (id_of_text id).
  - destruct (bind a b c d) as [e|v]; [done|]. destruct (existsb _ _); simpl.
    + split; [done|]. eapply Forall_impl; [exact Hlt|]. simpl. intros; lia.
    + split.
      * rewrite fmap_app. apply NoDup_app. split; [done|]. split.
        -- intros i Hi [->|[]%elem_of_nil]%elem_of_cons.
           apply list_elem_of_fmap in Hi as (r & Hr & Hin).
           rewrite Forall_forall in Hlt. specialize (Hlt r Hin). simpl in *. lia.
        -- apply NoDup_singleton.
      * apply Forall_app. split.
        -- eapply Forall_impl; [exact Hlt|]. simpl. intros; lia.
        -- apply Forall_singleton. simpl. lia.
  - destruct (id_of_text id) as [i|]; simpl; [|done].
    destruct (bind a b c d) as [e|v]; [done|]. simpl. split.
    + by rewrite rewrite_keeps_ids.
    + apply Forall_fmap. eapply Forall_impl; [exact Hlt|]. simpl.
      intros r Hr. by destruct (has_id i r).
  - destruct (id_of_text id) as [i|]; simpl; [|done]. split.
    + by apply filter_keeps_unique.
    + rewrite Forall_forall in Hlt. apply Forall_forall. intros r Hr.
      apply list_elem_of_In, filter_In in Hr as [Hr _]. by apply Hlt, list_elem_of_In.
Qed.

Lemma query_consistent q w : consistent (table w) → consistent (table (query q w).1).
Proof.
  intros Hc. destruct (query_table q w) as [-> | ->]; [done | by apply execute_consistent].
Qed.

(** Every route leaves a consistent table consistent. *)
Lemma router_consistent (r : Route) req w :
  consistent (table w) → consistent (table (router r req w).1).
Proof.
  intros Hc. destruct r; simpl.
  - unfold router_get, db_any.
    pose proof (query_consistent SelectAll w Hc).
    by destruct (query _ _) as [w' [e|d]].
  - unfold router_get_id, db_oneOrNone.
    pose proof (query_consistent (SelectById (params_id req)) w Hc).
    by destruct (query _ _) as [w' [e|[[|r [|r' l]]]]].
  - destruct (valid_body (body req)) eqn:Hv.
    + rewrite router_post_valid by done. unfold db_one.
      match goal with |- context [query ?q w] => pose proof (query_consistent q w Hc) end.
      by destruct (query _ _) as [w' [e|[[|r [|r' l]]]]].
    + by rewrite router_post_invalid.
  - destruct (valid_body (body req)) eqn:Hv.
    + rewrite router_put_id_valid by done. unfold db_one.
      match goal with |- context [query ?q w] => pose proof (query_consistent q w Hc) end.
      by destruct (query _ _) as [w' [e|[[|r [|r' l]]]]].
    + by rewrite router_put_id_invalid.
  - unfold router_delete_id, db_result.
    pose proof (query_consistent (DeleteById (params_id req)) w Hc).
    destruct (query _ _) as [w' [e|d]]; [done|]. by destruct (0 <? rowCount d)%nat.
Qed.

Lemma empty_world_consistent : consistent (table empty_world).
Proof. split; [apply NoDup_nil_2 | apply Forall_nil_2]. Qed.
End Consistency.

(** ** Storage failures *)

Section Failures.
Context `{Engine}.

Lemma rejected_run (r : Route) req w e :
  rejects r req w e →
  (router r req w).2 = server_error (error_message r)
  ∧ console (router r req w).1 = console w ++ [(error_label r, e)].
Proof.
  destruct r; simpl.
  - unfold router_get, db_any. pose proof (query_console SelectAll w) as Hc.
    destruct (query _ _) as [w' [e'|d]]; simpl; [|discriminate].
    intros [= ->]. simpl in Hc. by rewrite Hc.
  - unfold router_get_id, db_oneOrNone.
    pose proof (query_console (SelectById (params_id req)) w) as Hc.
    destruct (query _ _) as [w' [e'|[[|r [|r' l]]]]]; simpl; try discriminate;
      intros [= <-]; simpl in Hc; by rewrite Hc.
  - intros [Hv He]. rewrite router_post_valid by done. revert He. unfold db_one.
    match goal with |- context [query ?q w] => pose proof (query_console q w) as Hc end.
    destruct (query _ _) as [w' [e'|[[|r [|r' l]]]]]; simpl; try discriminate;
      intros [= <-]; simpl in Hc; by rewrite Hc.
  - intros [Hv He]. rewrite router_put_id_valid by done. revert He. unfold db_one.
    match goal with |- context [query ?q w] => pose proof (query_console q w) as Hc end.
    destruct (query _ _) as [w' [e'|[[|r [|r' l]]]]]; simpl; try discriminate;
      intros [= <-]; simpl in Hc; by rewrite Hc.
  - unfold router_delete_id, db_result.
    pose proof (query_console (DeleteById (params_id req)) w) as Hc.
    destruct (query _ _) as [w' [e'|d]]; simpl; [|discriminate].
    intros [= ->]. simpl in Hc. by rewrite Hc.
Qed.

(** C6: two runs of one route whose database calls reject, with whatever
    errors, in whatever worlds, are answered alike: status 500 and the
    fixed message of the route. The error itself goes to the console,
    under the label of the route, and nowhere else. *)
Theorem storage_failures_answer_alike (r : Route) req1 req2 w1 w2 e1 e2 :
  rejects r req1 w1 e1 →
  rejects r req2 w2 e2 →
  (router r req1 w1).2 = (router r req2 w2).2
  ∧ (router r req1 w1).2 = server_error (error_message r)
  ∧ console (router r req1 w1).1 = console w1 ++ [(error_label r, e1)]
  ∧ console (router r req2 w2).1 = console w2 ++ [(error_label r, e2)].
Proof.
  intros [R1 C1]%rejected_run [R2 C2]%rejected_run. by rewrite R1, R2.
Qed.
End Failures.

(** ** The shape of the returned records *)

Section Shape.
Context `{Engine}.

Lemma row_object_columns r :
  dom (row_object r) = column_names
  ∧ row_object r !! "roomName" = None
  ∧ row_object r !! "roomVolume" = None
  ∧ row_object r !! "airflowRate" = None.
Proof.
  unfold row_object, column_names. split; [|by simplify_map_eq].
  rewrite !dom_insert_L, dom_empty_L. set_solver.
Qed.

Lemma row_object_values r :
  row_object r !! "id" = Some (JNum (number_of_Z (Row.id r)))
  ∧ row_object r !! "room_name" = Some (JStr (Row.room_name r))
  ∧ row_object r !! "room_volume" = Some (JNum (Row.room_volume r))
  ∧ row_object r !! "airflow_rate" = Some (JNum (Row.airflow_rate r))
  ∧ row_object r !! "ach" = Some (JNum (Row.ach r)).
Proof. unfold row_object. by simplify_map_eq. Qed.

Lemma returned_record_row resp o :
  returned_record resp o →
  (∃ m, sent resp = Some (message_object m))
  ∨ ∃ r, r ∈ returned_rows resp ∧ o = row_object r.
Proof.
  unfold returned_record, returned_rows.
  destruct (sent resp) as [[m|r|data]|]; simpl; [| | |done].
  - intros _. left. by exists m.
  - intros ->. right. exists r. split; [apply list_elem_of_here | done].
  - intros (r & [= ->] & Hr)%list_elem_of_fmap. right. by exists r.
Qed.

Lemma success_is_no_message (r : Route) req w m :
  success (router r req w).2 = true → sent (router r req w).2 ≠ Some (message_object m).
Proof.
  destruct r; simpl.
  - unfold router_get. by destruct (db_any _ _) as [w' [e|d]].
  - unfold router_get_id. by destruct (db_oneOrNone _ _) as [w' [e|[d|]]].
  - destruct (valid_body (body req)) eqn:Hv.
    + rewrite router_post_valid by done. by destruct (db_one _ _) as [w' [e|d]].
    + by rewrite router_post_invalid.
  - destruct (valid_body (body req)) eqn:Hv.
    + rewrite router_put_id_valid by done. by destruct (db_one _ _) as [w' [e|d]].
    + by rewrite router_put_id_invalid.
  - unfold router_delete_id. destruct (db_result _ _) as [w' [e|d]]; [done|].
    by destruct (0 <? rowCount d)%nat.
Qed.

Lemma router_post_success req w :
  success (router_post req w).2 = true → status (router_post req w).2 = 201.
Proof.
  destruct (valid_body (body req)) eqn:Hv; [|by rewrite router_post_invalid].
  rewrite router_post_valid by done. by destruct (db_one _ _) as [w' [e|d]].
Qed.

Lemma router_put_id_success req w :
  success (router_put_id req w).2 = true → status (router_put_id req w).2 = 200.
Proof.
  destruct (valid_body (body req)) eqn:Hv; [|by rewrite router_put_id_invalid].
  rewrite router_put_id_valid by done. by destruct (db_one _ _) as [w' [e|d]].
Qed.

(** The rows of a successful response are rows of the table as the
    request leaves it. *)
Lemma returned_rows_stored (r : Route) req w shown :
  success (router r req w).2 = true →
  shown ∈ returned_rows (router r req w).2 →
  shown ∈ ach_data (table (router r req w).1).
Proof.
  destruct r; simpl.
  - unfold router_get, db_any.
    destruct (query_cases SelectAll w) as [(e & t & _ & _ & ->)|[_ ->]]; [done|].
    done.
  - unfold router_get_id, db_oneOrNone.
    destruct (query_cases (SelectById (params_id req)) w)
      as [(e & t & _ & _ & ->)|[_ ->]]; [done|].
    unfold after_query. simpl.
    destruct (id_of_text (params_id req)) as [i|]; [|done]. simpl.
    destruct (List.filter (has_id i) (ach_data (table w))) as [|found [|r' l]] eqn:Hsel;
      try done.
    intros _ ->%list_elem_of_singleton. by apply (selected_row _ i _ []).
  - intros Hs. pose proof Hs as (v & _ & _ & _ & _ & -> & Hr)%router_post_success%router_post_201.
    rewrite Hr. simpl. intros ->%list_elem_of_singleton.
    apply elem_of_app. right. apply list_elem_of_here.
  - intros Hs.
    pose proof Hs as (i & old & v & _ & _ & _ & _ & Hsel & -> & Hr)%router_put_id_success%router_put_id_200.
    rewrite Hr. simpl. intros ->%list_elem_of_singleton.
    destruct (selected_row _ _ _ _ Hsel) as [Hold Hid].
    apply list_elem_of_fmap. exists old. split; [|done].
    assert (has_id i old = true) as -> by by apply has_id_true. done.
  - unfold router_delete_id, db_result.
    destruct (query _ _) as [w' [e|d]]; [done|].
    by destruct (0 <? rowCount d)%nat; simpl; intros _ ?%elem_of_nil.
Qed.

(** C10: a record in a successful response of any route is an object
    whose properties are exactly the columns id, room_name, room_volume,
    airflow_rate and ach, with no property roomName, roomVolume or
    airflowRate; and under these names it carries the id and the four
    business values of a row of the table as the request leaves it. *)
Theorem records_carry_column_names (r : Route) req w o :
  success (router r req w).2 = true →
  returned_record (router r req w).2 o →
  dom o = column_names
  ∧ o !! "roomName" = None ∧ o !! "roomVolume" = None ∧ o !! "airflowRate" = None
  ∧ ∃ stored,
      stored ∈ ach_data (table (router r req w).1)
      ∧ o !! "id" = Some (JNum (number_of_Z (Row.id stored)))
      ∧ o !! "room_name" = Some (JStr (Row.room_name stored))
      ∧ o !! "room_volume" = Some (JNum (Row.room_volume stored))
      ∧ o !! "airflow_rate" = Some (JNum (Row.airflow_rate stored))
      ∧ o !! "ach" = Some (JNum (Row.ach stored)).
Proof.
  intros Hs [[m Hm]|(shown & Hshown & ->)]%returned_record_row.
  - by apply success_is_no_message with (m := m) in Hs.
  - destruct (row_object_columns shown) as (Hdom & H1 & H2 & H3).
    repeat (split; [done|]). exists shown.
    split; [by apply returned_rows_stored | apply row_object_values].
Qed.
End Shape.

(** ** The table is what the responses said *)

Section History.
Context `{Engine}.

Lemma select_at_most_one (l : list Row.t) i r r' rest :
  NoDup (Row.id <$> l) → List.filter (has_id i) l ≠ r :: r' :: rest.
Proof.
  intros Hu Hsel.
  assert (In r (List.filter (has_id i) l)) as Hin by (rewrite Hsel; by left).
  apply filter_In in Hin as [Hin Hid]. apply has_id_true in Hid. subst i.
  rewrite select_unique in Hsel by (done || by apply list_elem_of_In). discriminate.
Qed.

Lemma set_fields_selected (v : Fields) i (old : Row.t) (l : list Row.t) :
  Row.id old = i →
  (λ r, if has_id i r then set_fields v r else r) <$> l
  = (λ k, if has_id (Row.id (set_fields v old)) k then set_fields v old else k) <$> l.
Proof.
  intros Hold. apply list_fmap_ext. intros _ r _. simpl. rewrite Hold.
  destruct (has_id i r) eqn:Hr; [|done]. apply has_id_true in Hr.
  unfold set_fields. by rewrite Hr, Hold.
Qed.

Lemma select_keeps_the_table q w :
  q = SelectAll ∨ (∃ id, q = SelectById id) →
  table (query q w).1 = table w.
Proof.
  intros Hq. destruct (query_table q w) as [-> | ->]; [done|].
  destruct Hq as [-> | [id ->]]; simpl; [done|]. by destruct (id_of_text id).
Qed.

(** One request that is not answered with 500: the stored rows
    afterwards are the ones known before, brought up to date by the
    response. *)
Lemma router_acknowledged (r : Route) req w :
  unique_ids (table w) →
  status (router r req w).2 ≠ 500 →
  ach_data (table (router r req w).1)
    = acknowledge (ach_data (table w)) r req (router r req w).2.
Proof.
  intros Hu. destruct r; simpl.
  - unfold router_get, db_any.
    pose proof (select_keeps_the_table SelectAll w (or_introl eq_refl)) as Ht.
    destruct (query _ _) as [w' [e|d]]; simpl in *; by rewrite Ht.
  - unfold router_get_id, db_oneOrNone.
    pose proof (select_keeps_the_table (SelectById (params_id req)) w
                  (or_intror (ex_intro _ _ eq_refl))) as Ht.
    destruct (query _ _) as [w' [e|[[|r [|r' l]]]]]; simpl in *; by rewrite Ht.
  - destruct (valid_body (body req)) eqn:Hv; [|by rewrite router_post_invalid].
    intros Hs.
    assert (status (router_post req w).2 = 201) as H201.
    { revert Hs. rewrite router_post_valid by done.
      by destruct (db_one _ _) as [w' [e|d]]. }
    destruct (router_post_201 _ _ H201) as (v & _ & _ & _ & _ & Ht & Hr).
    rewrite Ht. by rewrite Hr.
  - destruct (valid_body (body req)) eqn:Hv; [|by rewrite router_put_id_invalid].
    intros Hs.
    assert (status (router_put_id req w).2 = 200) as H200.
    { revert Hs. rewrite router_put_id_valid by done.
      by destruct (db_one _ _) as [w' [e|d]]. }
    destruct (router_put_id_200 _ _ H200) as (i & old & v & _ & _ & _ & _ & Hsel & Ht & Hr).
    rewrite Ht. rewrite Hr. simpl. apply set_fields_selected.
    by destruct (selected_row _ _ _ _ Hsel).
  - unfold router_delete_id, db_result.
    destruct (query_cases (DeleteById (params_id req)) w)
      as [(e & t & _ & _ & ->)|[_ ->]]; [done|].
    unfold after_query. simpl.
    destruct (id_of_text (params_id req)) as [i|] eqn:Hi; [|done]. simpl.
    destruct (List.filter (has_id i) (ach_data (table w))) as [|r l] eqn:Hsel; simpl.
    + intros _. apply remove_none. intros r Hr Hri. by apply (select_some _ _ _ Hr Hri).
    + done.
Qed.

Lemma serve_consistent calls w :
  consistent (table w) → consistent (table (serve calls w).1).
Proof.
  revert w. induction calls as [|[r req] calls IH]; intros w Hc; [done|].
  simpl. pose proof (router_consistent r req w Hc) as Hc'.
  destruct (router r req w) as [w' resp]. simpl in *.
  specialize (IH w' Hc'). by destruct (serve calls w') as [w'' resps].
Qed.

(** Any number of requests, none of them answered with 500: from a
    consistent table on, the table holds the ledger of the responses. *)
Lemma serve_ledger calls w :
  consistent (table w) →
  Forall (λ resp, status resp ≠ 500) (serve calls w).2 →
  ach_data (table (serve calls w).1)
    = ledger (ach_data (table w)) calls (serve calls w).2.
Proof.
  revert w. induction calls as [|[r req] calls IH]; intros w Hc; [done|].
  simpl. pose proof (router_acknowledged r req w (proj1 Hc)) as Hstep.
  pose proof (router_consistent r req w Hc) as Hc'.
  destruct (router r req w) as [w' resp]. simpl in *.
  specialize (IH w' Hc'). destruct (serve calls w') as [w'' resps]. simpl in *.
  intros [Hresp Hresps]%Forall_cons. by rewrite IH, Hstep.
Qed.

Lemma execute_from_truthy q t :
  validated q = true →
  Forall from_truthy_values (ach_data t) →
  Forall from_truthy_values (ach_data (execute q t).1).
Proof.
  intros Hq Hall. destruct q as [|id|a b c d|a b c d id|id]; simpl in *.
  - done.
  - by destruct (id_of_text id).
  - destruct (bind a b c d) as [e|v] eqn:Hv; [done|].
    destruct (existsb _ _); simpl; [done|].
    apply Forall_app. split; [done|]. apply Forall_singleton.
    by exists a, b, c, d, v.
  - destruct (id_of_text id) as [i|]; simpl; [|done].
    destruct (bind a b c d) as [e|v] eqn:Hv; [done|]. simpl.
    apply Forall_fmap. eapply Forall_impl; [exact Hall|]. simpl.
    intros r Hr. destruct (has_id i r); [|done]. by exists a, b, c, d, v.
  - destruct (id_of_text id) as [i|]; simpl; [|done].
    rewrite Forall_forall in Hall. apply Forall_forall. intros r Hr.
    apply list_elem_of_In, filter_In in Hr as [Hr _]. by apply Hall, list_elem_of_In.
Qed.

Lemma query_from_truthy q w :
  validated q = true →
  Forall from_truthy_values (ach_data (table w)) →
  Forall from_truthy_values (ach_data (table (query q w).1)).
Proof.
  intros Hq Hall.
  destruct (query_table q w) as [-> | ->]; [done | by apply execute_from_truthy].
Qed.

(** Validation comes before every write: the routes store nothing but
    what the engine made of truthy values. *)
Lemma router_from_truthy (r : Route) req w :
  Forall from_truthy_values (ach_data (table w)) →
  Forall from_truthy_values (ach_data (table (router r req w).1)).
Proof.
  intros Hall. destruct r; simpl.
  - unfold router_get, db_any.
    pose proof (query_from_truthy SelectAll w eq_refl Hall).
    by destruct (query _ _) as [w' [e|d]].
  - unfold router_get_id, db_oneOrNone.
    pose proof (query_from_truthy (SelectById (params_id req)) w eq_refl Hall).
    by destruct (query _ _) as [w' [e|[[|r [|r' l]]]]].
  - destruct (valid_body (body req)) eqn:Hv; [|by rewrite router_post_invalid].
    rewrite router_post_valid by done. unfold db_one.
    match goal with |- context [query ?q w] => pose proof (query_from_truthy q w Hv Hall) end.
    by destruct (query _ _) as [w' [e|[[|r [|r' l]]]]].
  - destruct (valid_body (body req)) eqn:Hv; [|by rewrite router_put_id_invalid].
    rewrite router_put_id_valid by done. unfold db_one.
    match goal with |- context [query ?q w] => pose proof (query_from_truthy q w Hv Hall) end.
    by destruct (query _ _) as [w' [e|[[|r [|r' l]]]]].
  - unfold router_delete_id, db_result.
    pose proof (query_from_truthy (DeleteById (params_id req)) w eq_refl Hall).
    destruct (query _ _) as [w' [e|d]]; [done|]. by destruct (0 <? rowCount d)%nat.
Qed.

Lemma serve_from_truthy calls w :
  Forall from_truthy_values (ach_data (table w)) →
  Forall from_truthy_values (ach_data (table (serve calls w).1)).
Proof.
  revert w. induction calls as [|[r req] calls IH]; intros w Hall; [done|].
  simpl. pose proof (router_from_truthy r req w Hall) as Hall'.
  destruct (router r req w) as [w' resp]. simpl in *.
  specialize (IH w' Hall'). by destruct (serve calls w') as [w'' resps].
Qed.

(** Starting from the empty table, when no request so far was answered
    with 500, a list that meets no fault returns the records of the
    ledger of the earlier responses, each of them once, in some order. *)
Lemma list_after_history calls faults0 req :
  let start := mkWorld (mkTable [] 1) faults0 [] [] in
  Forall (λ resp, status resp ≠ 500) (serve calls start).2 →
  next_fault (serve calls start).1 = None →
  ∃ data,
    (router_get req (serve calls start).1).2 = mkResponse 200 (Some (row_array data))
    ∧ data ≡ₚ ledger [] calls (serve calls start).2
    ∧ NoDup data.
Proof.
  intros start Hno Hf.
  assert (consistent (table start)) as Hc
    by (split; [apply NoDup_nil_2 | apply Forall_nil_2]).
  pose proof (serve_ledger calls start Hc Hno) as Hl.
  pose proof (serve_consistent calls start Hc) as [Hu _].
  exists (ach_data (table (serve calls start).1)).
  rewrite router_get_run by done. split; [done|]. split; [by rewrite Hl|].
  by apply (NoDup_fmap_1 Row.id).
Qed.
End History.

(** ** The specification's example, run

    POST Lab A gives 201 and the row with id 1; GET /1 gives the same row;
    DELETE /1 gives 204; GET /1 then gives 404. *)

Example example_history :
  (@serve small_engine
     [(POST_root, mkRequest "" lab_a); (GET_id, mkRequest "1" ∅);
      (DELETE_id, mkRequest "1" ∅); (GET_id, mkRequest "1" ∅)]
     empty_world).2
  = [mkResponse 201 (Some (row lab_row)); mkResponse 200 (Some (row lab_row));
     mkResponse 204 None; not_found].
Proof. reflexivity. Qed.

(** The body that goes out for Lab A has the column names as its keys. *)
Example example_body :
  match to_json (row lab_row) with
  | JObj o => o !! "room_name" = Some (JStr "Lab A") ∧ o !! "roomName" = None
  | _ => False
  end.
Proof. split; reflexivity. Qed.

(** A path identifier the engine cannot read is a storage failure. *)
Example example_unreadable_id :
  (@router_get_id small_engine (mkRequest "abc" ∅) lab_world).2
  = server_error "Error fetching data".
Proof. reflexivity. Qed.

(** An update of an id that is not stored is a storage failure too. *)
Example example_update_missing :
  (@router_put_id small_engine (mkRequest "7" lab_b) lab_world).2
  = server_error "Error updating data".
Proof. reflexivity. Qed.

(** Zero air changes are refused. *)
Example example_zero :
  (@router_post small_engine (mkRequest "" lab_a_still) empty_world).2 = bad_request.
Proof. reflexivity. Qed.

(** A value the engine refuses is a storage failure: true is truthy, and
    no number. *)
Example example_refused_value :
  (@router_post small_engine (mkRequest "" (<["ach" := JBool true]> lab_a)) empty_world).2
  = server_error "Error submitting data".
Proof. reflexivity. Qed.

(** A driver failure after the statement has run: the create is answered
    with 500, and the row is stored. *)
Example example_write_behind_a_500 :
  let w := mkWorld (mkTable [] 1) [Some (after_statement (ConnectionError "ECONNRESET"))] [] [] in
  (@router_post small_engine (mkRequest "" lab_a) w).2 = server_error "Error submitting data"
  ∧ ach_data (table (@router_post small_engine (mkRequest "" lab_a) w).1) = [lab_row].
Proof. split; reflexivity. Qed.

(** ** The theorems at work on Lab A, Lab B and the store *)

Lemma create_then_get_witness :
  valid_body (body (mkRequest "" lab_b)) = true
  ∧ next_fault lab_world = None
  ∧ consistent (table lab_world)
  ∧ @bound small_engine (body (mkRequest "" lab_b)) = inr lab_b_fields
  ∧ as_bound (body (mkRequest "" lab_b)) lab_b_fields
  ∧ decimal (params_id (mkRequest "2" ∅)) = Some 2
  ∧ next_fault (@router_post small_engine (mkRequest "" lab_b) lab_world).1 = None
  ∧ (@router_post small_engine (mkRequest "" lab_b) lab_world).2
    = mkResponse 201 (Some (row (with_id 2 lab_b_fields)))
  ∧ (∀ r, r ∈ ach_data (table lab_world) → Row.id r ≠ 2)
  ∧ (@router_get_id small_engine (mkRequest "2" ∅)
       (@router_post small_engine (mkRequest "" lab_b) lab_world).1).2
    = mkResponse 200 (Some (row (with_id 2 lab_b_fields)))
  ∧ row_object (with_id 2 lab_b_fields) !! "room_name" = Some (prop lab_b "roomName")
  ∧ row_object (with_id 2 lab_b_fields) !! "room_volume" = Some (prop lab_b "roomVolume")
  ∧ row_object (with_id 2 lab_b_fields) !! "airflow_rate" = Some (prop lab_b "airflowRate")
  ∧ row_object (with_id 2 lab_b_fields) !! "ach" = Some (prop lab_b "ach").
Proof.
  assert (consistent (table lab_world)) as Hc.
  { split; [apply NoDup_singleton | apply Forall_singleton; reflexivity]. }
  assert (as_bound (body (mkRequest "" lab_b)) lab_b_fields) as Has
    by (repeat split; reflexivity).
  destruct (@create_then_get small_engine (mkRequest "" lab_b) lab_world eq_refl)
    as [Hok Hthen].
  destruct (Hthen (Hok lab_b_fields eq_refl Hc eq_refl))
    as (v & created & Hb & _ & Hresp & Hfresh & Hget & Heq).
  assert (v = lab_b_fields) as -> by (injection Hb as <-; reflexivity).
  assert (created = with_id 2 lab_b_fields) as -> by (injection Hresp as <-; reflexivity).
  split; [reflexivity|]. split; [reflexivity|]. split; [exact Hc|].
  split; [reflexivity|]. split; [exact Has|]. split; [reflexivity|].
  split; [reflexivity|]. split; [exact Hresp|]. split; [exact Hfresh|].
  split; [exact (Hget (mkRequest "2" ∅) eq_refl eq_refl) | exact (Heq Has)].
Defined.

(** A volume sent as the string "100" passes the check, is stored, and
    comes back as the number 100: the record read back does not equal the
    input. *)
Lemma create_then_get_counterexample :
  valid_body (body (mkRequest "" lab_a_text)) = true
  ∧ (@router_post small_engine (mkRequest "" lab_a_text) empty_world).2
    = mkResponse 201 (Some (row lab_row))
  ∧ (@router_get_id small_engine (mkRequest "1" ∅)
       (@router_post small_engine (mkRequest "" lab_a_text) empty_world).1).2
    = mkResponse 200 (Some (row lab_row))
  ∧ prop lab_a_text "roomVolume" = JStr "100"
  ∧ row_object lab_row !! "room_volume" = Some (JNum (number_of_Z 100))
  ∧ row_object lab_row !! "room_volume" ≠ Some (prop lab_a_text "roomVolume").
Proof. repeat split; try reflexivity. discriminate. Qed.

Lemma falsy_field_is_bad_request_witness :
  "ach" ∈ required_fields
  ∧ absent_or_empty (body (mkRequest "1" lab_a_still) !! "ach")
  ∧ (@router_post small_engine (mkRequest "1" lab_a_still) lab_world).2 = bad_request
  ∧ (@router_put_id small_engine (mkRequest "1" lab_a_still) lab_world).2 = bad_request
  ∧ success bad_request = false.
Proof.
  assert ("ach" ∈ required_fields) as Hin by (unfold required_fields; set_solver).
  assert (absent_or_empty (body (mkRequest "1" lab_a_still) !! "ach")) as Hzero
    by (vm_compute; apply field_zero).
  split; [exact Hin|]. split; [exact Hzero|].
  exact (@falsy_field_is_bad_request small_engine (mkRequest "1" lab_a_still) lab_world
           "ach" Hin Hzero).
Defined.

Lemma update_of_missing_row_is_server_error_witness :
  valid_body (body (mkRequest "7" lab_b)) = true
  ∧ (∀ r, r ∈ ach_data (table lab_world) →
          decimal (params_id (mkRequest "7" lab_b)) ≠ Some (Row.id r))
  ∧ (@router_put_id small_engine (mkRequest "7" lab_b) lab_world).2
      = server_error "Error updating data"
  ∧ (@router_put_id small_engine (mkRequest "7" lab_b) lab_world).2 ≠ not_found
  ∧ ach_data (table (@router_put_id small_engine (mkRequest "7" lab_b) lab_world).1)
      = ach_data (table lab_world).
Proof.
  assert (∀ r, r ∈ ach_data (table lab_world) →
               decimal (params_id (mkRequest "7" lab_b)) ≠ Some (Row.id r)) as Hnone.
  { intros r Hr. apply list_elem_of_singleton in Hr as ->. vm_compute. discriminate. }
  split; [reflexivity|]. split; [exact Hnone|].
  exact (@update_of_missing_row_is_server_error small_engine (mkRequest "7" lab_b) lab_world
           eq_refl Hnone).
Defined.

Lemma delete_removed_or_404_witness :
  next_fault two_rooms = None
  ∧ decimal (params_id (mkRequest "1" ∅)) = Some 1
  ∧ (∃ r, r ∈ ach_data (table two_rooms) ∧ Row.id r = 1)
  ∧ ach_data (table (@router_delete_id small_engine (mkRequest "1" ∅) two_rooms).1)
      = List.filter (λ r, negb (has_id 1 r)) (ach_data (table two_rooms))
  ∧ (∀ r, r ∈ ach_data (table (@router_delete_id small_engine (mkRequest "1" ∅) two_rooms).1) →
          Row.id r ≠ 1)
  ∧ (@router_delete_id small_engine (mkRequest "1" ∅) two_rooms).2 = mkResponse 204 None.
Proof.
  assert (∃ r, r ∈ ach_data (table two_rooms) ∧ Row.id r = 1) as Hrow
    by (exists lab_row; split; [apply list_elem_of_here | reflexivity]).
  destruct (@delete_removed_or_404 small_engine (mkRequest "1" ∅) two_rooms 1 eq_refl eq_refl)
    as (Htable & Hgone & Hremoved & _).
  split; [reflexivity|]. split; [reflexivity|]. split; [exact Hrow|].
  split; [exact Htable|]. split; [exact Hgone | exact (Hremoved Hrow)].
Defined.

Lemma get_by_id_found_or_404_witness :
  next_fault lab_world = None
  ∧ decimal (params_id (mkRequest "1" ∅)) = Some 1
  ∧ unique_ids (table lab_world)
  ∧ lab_row ∈ ach_data (table lab_world)
  ∧ Row.id lab_row = 1
  ∧ (@router_get_id small_engine (mkRequest "1" ∅) lab_world).2
      = mkResponse 200 (Some (row lab_row)).
Proof.
  assert (unique_ids (table lab_world)) as Hu by apply NoDup_singleton.
  assert (lab_row ∈ ach_data (table lab_world)) as Hin by apply list_elem_of_here.
  destruct (@get_by_id_found_or_404 small_engine (mkRequest "1" ∅) lab_world 1
              eq_refl eq_refl Hu) as [Hfound _].
  split; [reflexivity|]. split; [reflexivity|]. split; [exact Hu|]. split; [exact Hin|].
  split; [reflexivity | exact (Hfound lab_row Hin eq_refl)].
Defined.

Lemma storage_failures_answer_alike_witness :
  @rejects small_engine GET_id (mkRequest "1" ∅) unreachable_world
    (ConnectionError "ECONNREFUSED")
  ∧ @rejects small_engine GET_id (mkRequest "x" ∅) shutdown_world (DatabaseError "57P01")
  ∧ (@router small_engine GET_id (mkRequest "1" ∅) unreachable_world).2
      = (@router small_engine GET_id (mkRequest "x" ∅) shutdown_world).2
  ∧ (@router small_engine GET_id (mkRequest "1" ∅) unreachable_world).2
      = server_error (error_message GET_id)
  ∧ console (@router small_engine GET_id (mkRequest "1" ∅) unreachable_world).1
      = console unreachable_world ++ [(error_label GET_id, ConnectionError "ECONNREFUSED")]
  ∧ console (@router small_engine GET_id (mkRequest "x" ∅) shutdown_world).1
      = console shutdown_world ++ [(error_label GET_id, DatabaseError "57P01")].
Proof.
  split; [reflexivity|]. split; [reflexivity|].
  exact (@storage_failures_answer_alike small_engine GET_id (mkRequest "1" ∅)
           (mkRequest "x" ∅) unreachable_world shutdown_world _ _ eq_refl eq_refl).
Defined.

Lemma list_returns_every_row_once_witness :
  next_fault two_rooms = None
  ∧ unique_ids (table two_rooms)
  ∧ ∃ data,
      (@router_get small_engine (mkRequest "" ∅) two_rooms).2
        = mkResponse 200 (Some (row_array data))
      ∧ table (@router_get small_engine (mkRequest "" ∅) two_rooms).1 = table two_rooms
      ∧ (∀ r, r ∈ data ↔ r ∈ ach_data (table two_rooms))
      ∧ NoDup data
      ∧ Forall (λ r, row_object r !! "room_name" = Some (JStr (Row.room_name r))
                     ∧ row_object r !! "room_volume" = Some (JNum (Row.room_volume r))
                     ∧ row_object r !! "airflow_rate" = Some (JNum (Row.airflow_rate r))
                     ∧ row_object r !! "ach" = Some (JNum (Row.ach r))) data.
Proof.
  assert (unique_ids (table two_rooms)) as Hu.
  { apply NoDup_cons. split; [|apply NoDup_singleton].
    intros Hin. apply list_elem_of_singleton in Hin. discriminate. }
  split; [reflexivity|]. split; [exact Hu|].
  exact (@list_returns_every_row_once small_engine (mkRequest "" ∅) two_rooms eq_refl Hu).
Defined.

Lemma update_overwrites_one_row_witness :
  valid_body (body (mkRequest "1" lab_b)) = true
  ∧ next_fault two_rooms = None
  ∧ unique_ids (table two_rooms)
  ∧ lab_row ∈ ach_data (table two_rooms)
  ∧ decimal (params_id (mkRequest "1" lab_b)) = Some (Row.id lab_row)
  ∧ @bound small_engine (body (mkRequest "1" lab_b)) = inr lab_b_fields
  ∧ as_bound (body (mkRequest "1" lab_b)) lab_b_fields
  ∧ (@router_put_id small_engine (mkRequest "1" lab_b) two_rooms).2
    = mkResponse 200 (Some (row (with_id 1 lab_b_fields)))
  ∧ with_id 1 lab_b_fields
    ∈ ach_data (table (@router_put_id small_engine (mkRequest "1" lab_b) two_rooms).1)
  ∧ (store_row ∈ ach_data (table (@router_put_id small_engine (mkRequest "1" lab_b)
                                     two_rooms).1)
     ↔ store_row ∈ ach_data (table two_rooms))
  ∧ ach_data (table (@router_put_id small_engine (mkRequest "1" lab_b) two_rooms).1)
    ≡ₚ [with_id 1 lab_b_fields; store_row]
  ∧ ach_data_id_seq (table (@router_put_id small_engine (mkRequest "1" lab_b) two_rooms).1)
    = ach_data_id_seq (table two_rooms)
  ∧ row_object (with_id 1 lab_b_fields) !! "room_name" = Some (prop lab_b "roomName")
  ∧ row_object (with_id 1 lab_b_fields) !! "room_volume" = Some (prop lab_b "roomVolume")
  ∧ row_object (with_id 1 lab_b_fields) !! "airflow_rate" = Some (prop lab_b "airflowRate")
  ∧ row_object (with_id 1 lab_b_fields) !! "ach" = Some (prop lab_b "ach").
Proof.
  assert (unique_ids (table two_rooms)) as Hu.
  { apply NoDup_cons. split; [|apply NoDup_singleton].
    intros Hin. apply list_elem_of_singleton in Hin. discriminate. }
  assert (lab_row ∈ ach_data (table two_rooms)) as Hin by apply list_elem_of_here.
  assert (as_bound (body (mkRequest "1" lab_b)) lab_b_fields) as Has
    by (repeat split; reflexivity).
  destruct (@update_overwrites_one_row small_engine (mkRequest "1" lab_b) two_rooms eq_refl)
    as [Hok Hthen].
  destruct (Hthen (Hok lab_row lab_b_fields eq_refl Hu Hin eq_refl eq_refl))
    as (i & old & v & Hi & Hb & _ & _ & _ & Hresp & Hnew & _ & Hothers & Hperm & Hseq & Heq).
  assert (i = 1) as -> by (injection Hi as <-; reflexivity).
  assert (v = lab_b_fields) as -> by (injection Hb as <-; reflexivity).
  split; [reflexivity|]. split; [reflexivity|]. split; [exact Hu|]. split; [exact Hin|].
  split; [reflexivity|]. split; [reflexivity|]. split; [exact Has|].
  split; [exact Hresp|]. split; [exact Hnew|].
  split; [exact (Hothers store_row ltac:(discriminate))|].
  split; [exact Hperm|]. split; [exact Hseq | exact (Heq Has)].
Defined.

(** An update whose volume is the string "100" is answered with 200, and
    the row then holds the number 100, not the request value. *)
Lemma update_overwrites_one_row_counterexample :
  valid_body (body (mkRequest "1" lab_b_text)) = true
  ∧ (@router_put_id small_engine (mkRequest "1" lab_b_text) two_rooms).2
    = mkResponse 200 (Some (row (with_id 1 lab_b_fields)))
  ∧ ach_data (table (@router_put_id small_engine (mkRequest "1" lab_b_text) two_rooms).1)
    = [with_id 1 lab_b_fields; store_row]
  ∧ prop lab_b_text "roomVolume" = JStr "100"
  ∧ row_object (with_id 1 lab_b_fields) !! "room_volume" = Some (JNum (number_of_Z 100))
  ∧ row_object (with_id 1 lab_b_fields) !! "room_volume"
    ≠ Some (prop lab_b_text "roomVolume").
Proof. repeat split; try reflexivity. discriminate. Qed.

Lemma bad_request_touches_nothing_witness :
  status (@router small_engine POST_root (mkRequest "" lab_a_still) lab_world).2 = 400
  ∧ (@router small_engine POST_root (mkRequest "" lab_a_still) lab_world).1 = lab_world
  ∧ issued (@router small_engine POST_root (mkRequest "" lab_a_still) lab_world).1
      = issued lab_world.
Proof.
  split; [reflexivity|].
  exact (@bad_request_touches_nothing small_engine POST_root (mkRequest "" lab_a_still)
           lab_world eq_refl).
Defined.

Lemma records_carry_column_names_witness :
  success (@router small_engine GET_root (mkRequest "" ∅) two_rooms).2 = true
  ∧ returned_record (@router small_engine GET_root (mkRequest "" ∅) two_rooms).2
      (row_object store_row)
  ∧ dom (row_object store_row) = column_names
  ∧ row_object store_row !! "roomName" = None
  ∧ row_object store_row !! "roomVolume" = None
  ∧ row_object store_row !! "airflowRate" = None
  ∧ ∃ stored,
      stored ∈ ach_data (table (@router small_engine GET_root (mkRequest "" ∅) two_rooms).1)
      ∧ row_object store_row !! "id" = Some (JNum (number_of_Z (Row.id stored)))
      ∧ row_object store_row !! "room_name" = Some (JStr (Row.room_name stored))
      ∧ row_object store_row !! "room_volume" = Some (JNum (Row.room_volume stored))
      ∧ row_object store_row !! "airflow_rate" = Some (JNum (Row.airflow_rate stored))
      ∧ row_object store_row !! "ach" = Some (JNum (Row.ach stored)).
Proof.
  assert (returned_record (@router small_engine GET_root (mkRequest "" ∅) two_rooms).2
            (row_object store_row)) as Hrec.
  { unfold returned_record. simpl. apply list_elem_of_further, list_elem_of_here. }
  split; [reflexivity|]. split; [exact Hrec|].
  exact (@records_carry_column_names small_engine GET_root (mkRequest "" ∅) two_rooms
           (row_object store_row) eq_refl Hrec).
Defined.

(** ** What is refused, and what is looked at *)

Section Refusal.
Context `{Engine}.

Lemma truthy_false_falsy v : truthy v = false ↔ falsy v.
Proof.
  split.
  - destruct v as [| |[]|[]|[]| |]; simpl; try discriminate; intros _; constructor.
  - by intros [].
Qed.

Lemma valid_body_false (b : gmap string JsVal) :
  valid_body b = false ↔ ∃ k, k ∈ required_fields ∧ falsy (prop b k).
Proof.
  unfold valid_body, required_fields. split.
  - intros Hv.
    destruct (truthy (prop b "roomName")) eqn:E1;
      [|exists "roomName"; split; [set_solver | by apply truthy_false_falsy]].
    destruct (truthy (prop b "roomVolume")) eqn:E2;
      [|exists "roomVolume"; split; [set_solver | by apply truthy_false_falsy]].
    destruct (truthy (prop b "airflowRate")) eqn:E3;
      [|exists "airflowRate"; split; [set_solver | by apply truthy_false_falsy]].
    destruct (truthy (prop b "ach")) eqn:E4;
      [|exists "ach"; split; [set_solver | by apply truthy_false_falsy]].
    discriminate.
  - intros (k & Hk & Hf). apply truthy_false_falsy in Hf.
    repeat (apply elem_of_cons in Hk as [->|Hk]; [rewrite Hf; by rewrite ?andb_false_r |]).
    by apply elem_of_nil in Hk.
Qed.

(** A create or an update is answered with 400 exactly when one of the
    four properties is undefined, null, false, a zero, NaN or the empty
    string. Nothing else is refused: neither a string where a number is
    meant nor a negative number, an array or an object. *)
Theorem bad_request_iff_falsy_field (r : Route) req w :
  r = POST_root ∨ r = PUT_id →
  status (router r req w).2 = 400
  ↔ ∃ k, k ∈ required_fields ∧ falsy (prop (body req) k).
Proof.
  intros Hr. rewrite <- valid_body_false.
  destruct (valid_body (body req)) eqn:Hv; split; try done.
  - destruct Hr as [-> | ->]; simpl.
    + rewrite router_post_valid by done. by destruct (db_one _ _) as [w' [e|d]].
    + rewrite router_put_id_valid by done. by destruct (db_one _ _) as [w' [e|d]].
  - intros _. destruct Hr as [-> | ->]; simpl.
    + by rewrite router_post_invalid.
    + by rewrite router_put_id_invalid.
Qed.

(** Of a request the routes look at the path identifier and the four
    properties only: two requests that agree on these get the same answer
    and leave the same world, whatever else their bodies hold. An [id] in
    the body has no effect. *)
Theorem other_properties_are_ignored (r : Route) req1 req2 w :
  params_id req1 = params_id req2 →
  (∀ k, k ∈ required_fields → body req1 !! k = body req2 !! k) →
  router r req1 w = router r req2 w.
Proof.
  intros Hid Hb.
  assert (∀ k, k ∈ required_fields → prop (body req1) k = prop (body req2) k) as Hp.
  { intros k Hk. unfold prop. by rewrite (Hb k Hk). }
  pose proof (Hp "roomName" ltac:(unfold required_fields; set_solver)) as H1.
  pose proof (Hp "roomVolume" ltac:(unfold required_fields; set_solver)) as H2.
  pose proof (Hp "airflowRate" ltac:(unfold required_fields; set_solver)) as H3.
  pose proof (Hp "ach" ltac:(unfold required_fields; set_solver)) as H4.
  destruct r; simpl.
  - reflexivity.
  - unfold router_get_id. by rewrite Hid.
  - unfold router_post. by rewrite H1, H2, H3, H4.
  - unfold router_put_id. by rewrite H1, H2, H3, H4, Hid.
  - unfold router_delete_id. by rewrite Hid.
Qed.
End Refusal.

(** ** What every answer looks like *)

Section Answers.
Context `{Engine}.

(** Every answer of a route carries one of the status codes of its
    handler (an update is never answered with 404, a list never with 404
    or 400), and it is without a body exactly when the status is 204. *)
Theorem status_of_each_route (r : Route) req w :
  status (router r req w).2 ∈ statuses r
  ∧ (sent (router r req w).2 = None ↔ status (router r req w).2 = 204).
Proof.
  destruct r; simpl.
  - unfold router_get. destruct (db_any _ _) as [w' [e|d]]; simpl;
      (split; [set_solver | done]).
  - unfold router_get_id. destruct (db_oneOrNone _ _) as [w' [e|[d|]]]; simpl;
      (split; [set_solver | done]).
  - destruct (valid_body (body req)) eqn:Hv.
    + rewrite router_post_valid by done. destruct (db_one _ _) as [w' [e|d]]; simpl;
        (split; [set_solver | done]).
    + rewrite router_post_invalid by done. simpl. split; [set_solver | done].
  - destruct (valid_body (body req)) eqn:Hv.
    + rewrite router_put_id_valid by done. destruct (db_one _ _) as [w' [e|d]]; simpl;
        (split; [set_solver | done]).
    + rewrite router_put_id_invalid by done. simpl. split; [set_solver | done].
  - unfold router_delete_id. destruct (db_result _ _) as [w' [e|d]]; simpl.
    + split; [set_solver | done].
    + destruct (0 <? rowCount d)%nat; simpl; (split; [set_solver | done]).
Qed.

(** A request hands exactly one statement to the driver, the one of its
    route, and none at all when its body is refused: a read sends a
    SELECT and nothing else, a failure is not retried. *)
Theorem one_statement_per_request (r : Route) req w :
  issued (router r req w).1
  = issued w ++ match statement_of r req with Some q => [q] | None => [] end.
Proof.
  destruct r; simpl.
  - unfold router_get, db_any. pose proof (query_issued SelectAll w) as Hq.
    by destruct (query _ _) as [w' [e|d]].
  - unfold router_get_id, db_oneOrNone.
    pose proof (query_issued (SelectById (params_id req)) w) as Hq.
    by destruct (query _ _) as [w' [e|[[|r [|r' l]]]]].
  - destruct (valid_body (body req)) eqn:Hv.
    + rewrite router_post_valid by done. unfold db_one.
      match goal with |- context [query ?q w] => pose proof (query_issued q w) as Hq end.
      by destruct (query _ _) as [w' [e|[[|r [|r' l]]]]].
    + rewrite router_post_invalid by done. simpl. by rewrite app_nil_r.
  - destruct (valid_body (body req)) eqn:Hv.
    + rewrite router_put_id_valid by done. unfold db_one.
      match goal with |- context [query ?q w] => pose proof (query_issued q w) as Hq end.
      by destruct (query _ _) as [w' [e|[[|r [|r' l]]]]].
    + rewrite router_put_id_invalid by done. simpl. by rewrite app_nil_r.
  - unfold router_delete_id, db_result.
    pose proof (query_issued (DeleteById (params_id req)) w) as Hq.
    destruct (query _ _) as [w' [e|d]]; [done|]. by destruct (0 <? rowCount d)%nat.
Qed.

(** The console is written to exactly when the answer is 500, and then
    one line is added, under the label of the route; an answer of any
    other status leaves the console as it was. *)
Theorem console_line_iff_500 (r : Route) req w :
  (status (router r req w).2 = 500
   ∧ ∃ e, console (router r req w).1 = console w ++ [(error_label r, e)])
  ∨ (status (router r req w).2 ≠ 500
     ∧ console (router r req w).1 = console w).
Proof.
  destruct r; simpl.
  - unfold router_get, db_any. pose proof (query_console SelectAll w) as Hq.
    destruct (query _ _) as [w' [e|d]]; simpl in *; rewrite Hq;
      [left; eauto | by right].
  - unfold router_get_id, db_oneOrNone.
    pose proof (query_console (SelectById (params_id req)) w) as Hq.
    destruct (query _ _) as [w' [e|[[|r [|r' l]]]]]; simpl in *; rewrite Hq;
      (by right) || (left; eauto).
  - destruct (valid_body (body req)) eqn:Hv.
    + rewrite router_post_valid by done. unfold db_one.
      match goal with |- context [query ?q w] => pose proof (query_console q w) as Hq end.
      destruct (query _ _) as [w' [e|[[|r [|r' l]]]]]; simpl in *; rewrite Hq;
        (by right) || (left; eauto).
    + rewrite router_post_invalid by done. by right.
  - destruct (valid_body (body req)) eqn:Hv.
    + rewrite router_put_id_valid by done. unfold db_one.
      match goal with |- context [query ?q w] => pose proof (query_console q w) as Hq end.
      destruct (query _ _) as [w' [e|[[|r [|r' l]]]]]; simpl in *; rewrite Hq;
        (by right) || (left; eauto).
    + rewrite router_put_id_invalid by done. by right.
  - unfold router_delete_id, db_result.
    pose proof (query_console (DeleteById (params_id req)) w) as Hq.
    destruct (query _ _) as [w' [e|d]]; simpl in *.
    + rewrite Hq. left; eauto.
    + destruct (0 <? rowCount d)%nat; simpl; rewrite Hq; by right.
Qed.

(** The two read routes leave the table as it was, rows and sequence,
    whether the statement runs, is refused, or the driver fails before or
    after it. *)
Theorem reads_leave_the_table (r : Route) req w :
  r = GET_root ∨ r = GET_id →
  table (router r req w).1 = table w.
Proof.
  intros [-> | ->]; simpl.
  - unfold router_get, db_any.
    pose proof (select_keeps_the_table SelectAll w (or_introl eq_refl)) as Ht.
    by destruct (query _ _) as [w' [e|d]].
  - unfold router_get_id, db_oneOrNone.
    pose proof (select_keeps_the_table (SelectById (params_id req)) w
                  (or_intror (ex_intro _ _ eq_refl))) as Ht.
    by destruct (query _ _) as [w' [e|[[|r [|r' l]]]]].
Qed.
End Answers.

(** ** One request after another *)

Section Sequences.
Context `{Engine}.

Lemma select_after_remove (l : list Row.t) i :
  List.filter (has_id i) (List.filter (λ r, negb (has_id i r)) l) = [].
Proof. apply select_none. intros r. apply remove_leaves_none. Qed.

Lemma select_after_rewrite (l : list Row.t) i (v : Fields) :
  List.filter (has_id i) ((λ r, if has_id i r then set_fields v r else r) <$> l)
  = set_fields v <$> List.filter (has_id i) l.
Proof.
  induction l as [|r l IH]; [done|]. rewrite fmap_cons. simpl.
  destruct (has_id i r) eqn:Hr; simpl.
  - assert (has_id i (set_fields v r) = true) as -> by exact Hr.
    simpl. by rewrite IH.
  - by rewrite Hr.
Qed.

Lemma rewrite_twice (l : list Row.t) i (v : Fields) :
  (λ r, if has_id i r then set_fields v r else r)
    <$> ((λ r, if has_id i r then set_fields v r else r) <$> l)
  = (λ r, if has_id i r then set_fields v r else r) <$> l.
Proof.
  rewrite <- list_fmap_compose. apply list_fmap_ext. intros _ r _. simpl.
  destruct (has_id i r) eqn:Hr; [|by rewrite Hr].
  assert (has_id i (set_fields v r) = true) as -> by exact Hr. done.
Qed.

(** After a delete that ran, a get-by-id of the same path identifier that
    runs is answered with 404, whether the delete found a row or not. *)
Theorem delete_then_get_is_404 req req' w i :
  next_fault w = None →
  id_of_text (params_id req) = Some i →
  params_id req' = params_id req →
  next_fault (router_delete_id req w).1 = None →
  (router_get_id req' (router_delete_id req w).1).2 = not_found.
Proof.
  intros Hf Hi Hsame Hf'.
  assert (id_of_text (params_id req') = Some i) as Hi' by by rewrite Hsame.
  rewrite (router_get_id_run _ _ i) by done.
  rewrite (router_delete_id_run _ _ i) by done.
  unfold after_query. simpl. rewrite Hi. simpl.
  by rewrite select_after_remove.
Qed.

(** Deleting twice: the second delete of a path identifier, when both
    run, is answered with 404 and removes nothing. *)
Theorem delete_again_is_404 req w i :
  next_fault w = None →
  id_of_text (params_id req) = Some i →
  next_fault (router_delete_id req w).1 = None →
  (router_delete_id req (router_delete_id req w).1).2 = not_found
  ∧ ach_data (table (router_delete_id req (router_delete_id req w).1).1)
    = ach_data (table (router_delete_id req w).1).
Proof.
  intros Hf Hi Hf'.
  rewrite (router_delete_id_run _ (router_delete_id req w).1 i) by done.
  rewrite (router_delete_id_run _ w i) by done.
  unfold after_query. simpl. rewrite !Hi. simpl.
  rewrite select_after_remove. split; [done|].
  apply remove_none. intros r. apply remove_leaves_none.
Qed.

(** An update that was answered with 200 can be read back: a get-by-id
    of the same path identifier, run next, gets the very same answer. *)
Theorem update_then_get req req' w :
  status (router_put_id req w).2 = 200 →
  params_id req' = params_id req →
  next_fault (router_put_id req w).1 = None →
  (router_get_id req' (router_put_id req w).1).2 = (router_put_id req w).2.
Proof.
  intros H200 Hsame Hf'.
  destruct (router_put_id_200 _ _ H200)
    as (i & old & v & _ & _ & Hi & _ & Hsel & Ht & Hr).
  assert (id_of_text (params_id req') = Some i) as Hi' by by rewrite Hsame.
  rewrite (router_get_id_run _ _ i) by done.
  rewrite Ht. simpl. rewrite select_after_rewrite, Hsel. simpl. by rewrite Hr.
Qed.

(** Updating twice with the same request: when the first update was
    answered with 200 and the second runs, the second gets the same
    answer and leaves the rows as the first left them. *)
Theorem update_again_is_the_same req w :
  status (router_put_id req w).2 = 200 →
  next_fault (router_put_id req w).1 = None →
  (router_put_id req (router_put_id req w).1).2 = (router_put_id req w).2
  ∧ ach_data (table (router_put_id req (router_put_id req w).1).1)
    = ach_data (table (router_put_id req w).1).
Proof.
  intros H200 Hf'.
  destruct (router_put_id_200 _ _ H200)
    as (i & old & v & _ & Hv & Hi & Hb & Hsel & Ht & Hr).
  rewrite (router_put_id_valid req (router_put_id req w).1) by done.
  rewrite (update_one_run _ _ _ _ _ _ i v) by done.
  unfold after_query. simpl. unfold bound in Hb. rewrite Hi, Hb. simpl.
  rewrite Ht. simpl. rewrite select_after_rewrite, Hsel. simpl.
  split; [by rewrite Hr | apply rewrite_twice].
Qed.

(** A get-by-id answered with 200 shows a stored row, and one whose id
    is the one the engine reads from the path: never a row of another
    id, never a row that is not stored. *)
Theorem get_shows_a_stored_row_of_that_id req w :
  status (router_get_id req w).2 = 200 →
  ∃ r, sent (router_get_id req w).2 = Some (row r)
       ∧ r ∈ ach_data (table w)
       ∧ id_of_text (params_id req) = Some (Row.id r).
Proof.
  unfold router_get_id, db_oneOrNone.
  destruct (query_cases (SelectById (params_id req)) w)
    as [(e & t & _ & _ & ->)|[_ ->]]; [done|].
  simpl. destruct (id_of_text (params_id req)) as [i|]; [|done]. simpl.
  destruct (List.filter (has_id i) (ach_data (table w))) as [|r [|r' l]] eqn:Hsel;
    try done.
  intros _. exists r. split; [done|].
  destruct (selected_row _ _ _ _ Hsel) as [Hin Hid]. split; [done | by rewrite Hid].
Qed.

(** A delete answered with 204 did remove a row: a stored row had the id
    the engine reads from the path, no row has it afterwards, and the
    rows of other ids are all still there, in their order. *)
Theorem delete_204_removed_a_row req w :
  status (router_delete_id req w).2 = 204 →
  ∃ i r, id_of_text (params_id req) = Some i
         ∧ r ∈ ach_data (table w) ∧ Row.id r = i
         ∧ ach_data (table (router_delete_id req w).1)
           = List.filter (λ r, negb (has_id i r)) (ach_data (table w))
         ∧ ∀ r', r' ∈ ach_data (table (router_delete_id req w).1) → Row.id r' ≠ i.
Proof.
  unfold router_delete_id, db_result.
  destruct (query_cases (DeleteById (params_id req)) w)
    as [(e & t & _ & _ & ->)|[_ ->]]; [done|].
  unfold after_query. simpl.
  destruct (id_of_text (params_id req)) as [i|] eqn:Hi; [|done]. simpl.
  destruct (List.filter (has_id i) (ach_data (table w))) as [|r l] eqn:Hsel; [done|].
  intros _. exists i, r. destruct (selected_row _ _ _ _ Hsel) as [Hin Hid].
  repeat (split; [done|]). intros r'. apply remove_leaves_none.
Qed.
End Sequences.

(** ** Over any history *)

Section Histories.
Context `{Engine}.

(** A request answered with 400 or 404 has written nothing: the table,
    rows and sequence, is as it was. (A 500 gives no such assurance: the
    driver may have failed after the statement ran.) *)
Theorem client_error_changes_nothing (r : Route) req w :
  status (router r req w).2 = 400 ∨ status (router r req w).2 = 404 →
  table (router r req w).1 = table w.
Proof.
  destruct r; simpl.
  - unfold router_get. destruct (db_any _ _) as [w' [e|d]]; simpl; by intros [|].
  - intros _. unfold router_get_id, db_oneOrNone.
    pose proof (select_keeps_the_table (SelectById (params_id req)) w
                  (or_intror (ex_intro _ _ eq_refl))) as Ht.
    by destruct (query _ _) as [w' [e|[[|r0 [|r' l]]]]].
  - destruct (valid_body (body req)) eqn:Hv; [|by rewrite router_post_invalid].
    rewrite router_post_valid by done.
    destruct (db_one _ _) as [w' [e|d]]; simpl; by intros [|].
  - destruct (valid_body (body req)) eqn:Hv; [|by rewrite router_put_id_invalid].
    rewrite router_put_id_valid by done.
    destruct (db_one _ _) as [w' [e|d]]; simpl; by intros [|].
  - unfold router_delete_id, db_result.
    destruct (query_cases (DeleteById (params_id req)) w)
      as [(e & t & _ & _ & ->)|[_ ->]]; [by intros [|]|].
    unfold after_query. simpl.
    destruct (id_of_text (params_id req)) as [i|] eqn:Hi; [|by intros [|]]. simpl.
    destruct (List.filter (has_id i) (ach_data (table w))) as [|found l] eqn:Hsel;
      simpl; [|by intros [|]].
    intros _. destruct (table w) as [l s] eqn:Ht. simpl in *. f_equal.
    apply remove_none. intros r0 Hr0 Hri. by apply (select_some _ _ _ Hr0 Hri).
Qed.

Lemma execute_seq q t :
  ach_data_id_seq t ≤ ach_data_id_seq (execute q t).1.
Proof.
  destruct q as [|id|a b c d|a b c d id|id]; simpl.
  - lia.
  - destruct (id_of_text id); simpl; lia.
  - destruct (bind a b c d); [simpl; lia|]. destruct (existsb _ _); simpl; lia.
  - destruct (id_of_text id); simpl; [|lia]. destruct (bind a b c d); simpl; lia.
  - destruct (id_of_text id); simpl; lia.
Qed.

Lemma query_seq q w :
  ach_data_id_seq (table w) ≤ ach_data_id_seq (table (query q w).1).
Proof.
  destruct (query_table q w) as [-> | ->]; [lia | apply execute_seq].
Qed.

Lemma router_seq (r : Route) req w :
  ach_data_id_seq (table w) ≤ ach_data_id_seq (table (router r req w).1).
Proof.
  destruct r; simpl.
  - unfold router_get, db_any. pose proof (query_seq SelectAll w).
    by destruct (query _ _) as [w' [e|d]].
  - unfold router_get_id, db_oneOrNone.
    pose proof (query_seq (SelectById (params_id req)) w).
    by destruct (query _ _) as [w' [e|[[|r [|r' l]]]]].
  - destruct (valid_body (body req)) eqn:Hv; [|by rewrite router_post_invalid].
    rewrite router_post_valid by done. unfold db_one.
    match goal with |- context [query ?q w] => pose proof (query_seq q w) end.
    by destruct (query _ _) as [w' [e|[[|r [|r' l]]]]].
  - destruct (valid_body (body req)) eqn:Hv; [|by rewrite router_put_id_invalid].
    rewrite router_put_id_valid by done. unfold db_one.
    match goal with |- context [query ?q w] => pose proof (query_seq q w) end.
    by destruct (query _ _) as [w' [e|[[|r [|r' l]]]]].
  - unfold router_delete_id, db_result.
    pose proof (query_seq (DeleteById (params_id req)) w).
    destruct (query _ _) as [w' [e|d]]; [done|]. by destruct (0 <? rowCount d)%nat.
Qed.

(** The id of a 201 response is the sequence's value before the request,
    and the sequence is past it afterwards. *)
Lemma router_created (r : Route) req w i :
  created_id (router r req w).2 = Some i →
  i = ach_data_id_seq (table w) ∧ i < ach_data_id_seq (table (router r req w).1).
Proof.
  unfold created_id. destruct r; simpl.
  - unfold router_get. by destruct (db_any _ _) as [w' [e|d]].
  - unfold router_get_id. by destruct (db_oneOrNone _ _) as [w' [e|[d|]]].
  - destruct (sent (router_post req w).2) as [[m|shown|data]|] eqn:Hsent; try done.
    destruct (status (router_post req w).2 =? 201) eqn:Hs; [|done].
    apply Z.eqb_eq in Hs.
    destruct (router_post_201 _ _ Hs) as (v & _ & _ & _ & _ & Ht & Hr).
    rewrite Hr in Hsent. simpl in Hsent. injection Hsent as <-.
    rewrite Ht. simpl. intros [= <-]. lia.
  - destruct (valid_body (body req)) eqn:Hv; [|by rewrite router_put_id_invalid].
    rewrite router_put_id_valid by done. by destruct (db_one _ _) as [w' [e|d]].
  - unfold router_delete_id. destruct (db_result _ _) as [w' [e|d]]; [done|].
    by destruct (0 <? rowCount d)%nat.
Qed.

Lemma created_ids_from calls w :
  Forall (λ i, ach_data_id_seq (table w) ≤ i) (created_ids (serve calls w).2)
  ∧ StronglySorted Z.lt (created_ids (serve calls w).2).
Proof.
  revert w. induction calls as [|[r req] calls IH]; intros w.
  { split; constructor. }
  simpl. pose proof (router_seq r req w) as Hseq.
  pose proof (router_created r req w) as Hnew.
  destruct (router r req w) as [w' resp]. simpl in *.
  specialize (IH w'). destruct (serve calls w') as [w'' resps]. simpl in *.
  destruct IH as [Hge Hsorted]. unfold created_ids in *. simpl.
  destruct (created_id resp) as [i|].
  - destruct (Hnew i eq_refl) as [-> Hlt]. split.
    + constructor; [lia|]. eapply Forall_impl; [exact Hge|]. simpl. intros; lia.
    + constructor; [done|]. eapply Forall_impl; [exact Hge|]. simpl. intros; lia.
  - split; [|done]. eapply Forall_impl; [exact Hge|]. simpl. intros; lia.
Qed.

(** However creates, updates, deletes and reads follow one another, and
    whichever of them fail, the ids of the 201 responses grow strictly:
    no two creates get the same id, and on a consistent table none gets
    the id of a row that is or was stored, deleted or not. *)
Theorem created_ids_are_new calls w :
  consistent (table w) →
  StronglySorted Z.lt (created_ids (serve calls w).2)
  ∧ NoDup (created_ids (serve calls w).2)
  ∧ ∀ i r, i ∈ created_ids (serve calls w).2 → r ∈ ach_data (table w) → Row.id r < i.
Proof.
  intros [_ Hlt]. destruct (created_ids_from calls w) as [Hge Hsorted].
  split; [done|]. split.
  - clear Hge. induction Hsorted as [|i ids Hs IH Hall]; constructor; [|done].
    intros Hin. rewrite Forall_forall in Hall. specialize (Hall i Hin). lia.
  - intros i r Hi Hr. rewrite Forall_forall in Hge. rewrite Forall_forall in Hlt.
    specialize (Hge i Hi). specialize (Hlt r Hr). simpl in *. lia.
Qed.

(** Every request keeps what the table had, whichever way it ends: ids
    stay unique and below the sequence, and every stored row holds what
    the engine made of four truthy values, since no write gets past the
    check of the handlers. After any history, too. *)
Theorem history_keeps_the_table_sound calls w :
  consistent (table w) →
  Forall from_truthy_values (ach_data (table w)) →
  consistent (table (serve calls w).1)
  ∧ Forall from_truthy_values (ach_data (table (serve calls w).1)).
Proof.
  intros Hc Hall. split; [by apply serve_consistent | by apply serve_from_truthy].
Qed.

(** From a consistent table on, as long as no request is answered with
    500, the stored rows are what the responses have told: the rows of
    the 201 responses, as the last 200 response of an update shows them,
    less those a 204 took away; in whatever order. *)
Theorem table_is_what_responses_told calls w :
  consistent (table w) →
  Forall (λ resp, status resp ≠ 500) (serve calls w).2 →
  ach_data (table (serve calls w).1)
  ≡ₚ ledger (ach_data (table w)) calls (serve calls w).2.
Proof. intros Hc Hno. by rewrite serve_ledger. Qed.
End Histories.

(** ** Failures and identifiers *)

Section Identifiers.
Context `{Engine}.

(** A route answers 500 exactly when its database call was reached and
    rejected: a refused body or a missing row of a read or a delete is
    never a 500, and a rejection is never answered otherwise. *)
Theorem server_error_iff_rejected (r : Route) req w :
  status (router r req w).2 = 500 ↔ ∃ e, rejects r req w e.
Proof.
  split; [|intros [e [-> _]%rejected_run]; done].
  destruct r; simpl.
  - unfold router_get. destruct (db_any _ _) as [w' [e|d]]; [eauto | done].
  - unfold router_get_id. destruct (db_oneOrNone _ _) as [w' [e|[d|]]]; [eauto | done..].
  - destruct (valid_body (body req)) eqn:Hv; [|by rewrite router_post_invalid].
    rewrite router_post_valid by done.
    destruct (db_one _ _) as [w' [e|d]]; [eauto | done].
  - destruct (valid_body (body req)) eqn:Hv; [|by rewrite router_put_id_invalid].
    rewrite router_put_id_valid by done.
    destruct (db_one _ _) as [w' [e|d]]; [eauto | done].
  - unfold router_delete_id. destruct (db_result _ _) as [w' [e|d]]; [eauto|].
    by destruct (0 <? rowCount d)%nat.
Qed.

Lemma update_keeps_ids a b c d id t :
  Row.id <$> ach_data (execute (Update a b c d id) t).1 = Row.id <$> ach_data t
  ∧ ach_data_id_seq (execute (Update a b c d id) t).1 = ach_data_id_seq t.
Proof.
  simpl. destruct (id_of_text id) as [i|]; [|done].
  destruct (bind a b c d) as [e|v]; [done|]. simpl. by rewrite rewrite_keeps_ids.
Qed.

(** An update, whatever its outcome, leaves the ids of the stored rows
    as they were, row for row, and the sequence too: it never adds a row,
    never removes one and never gives a row another id. *)
Theorem update_never_touches_ids req w :
  Row.id <$> ach_data (table (router_put_id req w).1) = Row.id <$> ach_data (table w)
  ∧ ach_data_id_seq (table (router_put_id req w).1) = ach_data_id_seq (table w).
Proof.
  destruct (valid_body (body req)) eqn:Hv; [|by rewrite router_put_id_invalid].
  rewrite router_put_id_valid by done. unfold db_one.
  match goal with |- context [query ?q w] =>
    pose proof (query_table q w) as Ht;
    pose proof (update_keeps_ids (prop (body req) "roomName") (prop (body req) "roomVolume")
                  (prop (body req) "airflowRate") (prop (body req) "ach")
                  (params_id req) (table w)) as Hk;
    destruct (query q w) as [w' [e|[[|r [|r' l]] n]]]
  end; simpl in *; destruct Ht as [-> | ->]; done.
Qed.
End Identifiers.

(** ** The further properties at work on Lab A, Lab B and the store *)

Lemma bad_request_iff_falsy_field_witness :
  (POST_root = POST_root ∨ POST_root = PUT_id)
  ∧ (status (@router small_engine POST_root (mkRequest "" lab_a_still) lab_world).2 = 400
     ↔ ∃ k, k ∈ required_fields ∧ falsy (prop (body (mkRequest "" lab_a_still)) k)).
Proof.
  split; [by left|].
  exact (@bad_request_iff_falsy_field small_engine POST_root (mkRequest "" lab_a_still)
           lab_world (or_introl eq_refl)).
Defined.

Lemma other_properties_are_ignored_witness :
  params_id (mkRequest "" lab_a_with_id) = params_id (mkRequest "" lab_a)
  ∧ (∀ k, k ∈ required_fields →
          body (mkRequest "" lab_a_with_id) !! k = body (mkRequest "" lab_a) !! k)
  ∧ @router small_engine POST_root (mkRequest "" lab_a_with_id) empty_world
    = @router small_engine POST_root (mkRequest "" lab_a) empty_world.
Proof.
  assert (∀ k, k ∈ required_fields →
               body (mkRequest "" lab_a_with_id) !! k = body (mkRequest "" lab_a) !! k) as Hb.
  { intros k Hk. unfold required_fields in Hk.
    repeat (apply elem_of_cons in Hk as [->|Hk]; [reflexivity|]).
    by apply elem_of_nil in Hk. }
  split; [reflexivity|]. split; [exact Hb|].
  exact (@other_properties_are_ignored small_engine POST_root (mkRequest "" lab_a_with_id)
           (mkRequest "" lab_a) empty_world eq_refl Hb).
Defined.

Lemma reads_leave_the_table_witness :
  (GET_id = GET_root ∨ GET_id = GET_id)
  ∧ table (@router small_engine GET_id (mkRequest "1" ∅) unreachable_world).1
    = table unreachable_world.
Proof.
  split; [by right|].
  exact (@reads_leave_the_table small_engine GET_id (mkRequest "1" ∅) unreachable_world
           (or_intror eq_refl)).
Defined.

Lemma delete_then_get_is_404_witness :
  next_fault two_rooms = None
  ∧ decimal (params_id (mkRequest "1" ∅)) = Some 1
  ∧ params_id (mkRequest "1" lab_a) = params_id (mkRequest "1" ∅)
  ∧ next_fault (@router_delete_id small_engine (mkRequest "1" ∅) two_rooms).1 = None
  ∧ (@router_get_id small_engine (mkRequest "1" lab_a)
       (@router_delete_id small_engine (mkRequest "1" ∅) two_rooms).1).2 = not_found.
Proof.
  split; [reflexivity|]. split; [reflexivity|]. split; [reflexivity|].
  split; [reflexivity|].
  exact (@delete_then_get_is_404 small_engine (mkRequest "1" ∅) (mkRequest "1" lab_a)
           two_rooms 1 eq_refl eq_refl eq_refl eq_refl).
Defined.

Lemma delete_again_is_404_witness :
  next_fault two_rooms = None
  ∧ decimal (params_id (mkRequest "1" ∅)) = Some 1
  ∧ next_fault (@router_delete_id small_engine (mkRequest "1" ∅) two_rooms).1 = None
  ∧ (@router_delete_id small_engine (mkRequest "1" ∅)
       (@router_delete_id small_engine (mkRequest "1" ∅) two_rooms).1).2 = not_found
  ∧ ach_data (table (@router_delete_id small_engine (mkRequest "1" ∅)
                       (@router_delete_id small_engine (mkRequest "1" ∅) two_rooms).1).1)
    = ach_data (table (@router_delete_id small_engine (mkRequest "1" ∅) two_rooms).1).
Proof.
  split; [reflexivity|]. split; [reflexivity|]. split; [reflexivity|].
  exact (@delete_again_is_404 small_engine (mkRequest "1" ∅) two_rooms 1
           eq_refl eq_refl eq_refl).
Defined.

Lemma update_then_get_witness :
  status (@router_put_id small_engine (mkRequest "1" lab_b) two_rooms).2 = 200
  ∧ params_id (mkRequest "1" ∅) = params_id (mkRequest "1" lab_b)
  ∧ next_fault (@router_put_id small_engine (mkRequest "1" lab_b) two_rooms).1 = None
  ∧ (@router_get_id small_engine (mkRequest "1" ∅)
       (@router_put_id small_engine (mkRequest "1" lab_b) two_rooms).1).2
    = (@router_put_id small_engine (mkRequest "1" lab_b) two_rooms).2.
Proof.
  split; [reflexivity|]. split; [reflexivity|]. split; [reflexivity|].
  exact (@update_then_get small_engine (mkRequest "1" lab_b) (mkRequest "1" ∅) two_rooms
           eq_refl eq_refl eq_refl).
Defined.

Lemma update_again_is_the_same_witness :
  status (@router_put_id small_engine (mkRequest "1" lab_b) two_rooms).2 = 200
  ∧ next_fault (@router_put_id small_engine (mkRequest "1" lab_b) two_rooms).1 = None
  ∧ (@router_put_id small_engine (mkRequest "1" lab_b)
       (@router_put_id small_engine (mkRequest "1" lab_b) two_rooms).1).2
    = (@router_put_id small_engine (mkRequest "1" lab_b) two_rooms).2
  ∧ ach_data (table (@router_put_id small_engine (mkRequest "1" lab_b)
                       (@router_put_id small_engine (mkRequest "1" lab_b) two_rooms).1).1)
    = ach_data (table (@router_put_id small_engine (mkRequest "1" lab_b) two_rooms).1).
Proof.
  split; [reflexivity|]. split; [reflexivity|].
  exact (@update_again_is_the_same small_engine (mkRequest "1" lab_b) two_rooms
           eq_refl eq_refl).
Defined.

Lemma get_shows_a_stored_row_of_that_id_witness :
  status (@router_get_id small_engine (mkRequest "2" ∅) two_rooms).2 = 200
  ∧ ∃ r, sent (@router_get_id small_engine (mkRequest "2" ∅) two_rooms).2 = Some (row r)
         ∧ r ∈ ach_data (table two_rooms)
         ∧ decimal (params_id (mkRequest "2" ∅)) = Some (Row.id r).
Proof.
  split; [reflexivity|].
  exact (@get_shows_a_stored_row_of_that_id small_engine (mkRequest "2" ∅) two_rooms eq_refl).
Defined.

Lemma delete_204_removed_a_row_witness :
  status (@router_delete_id small_engine (mkRequest "1" ∅) two_rooms).2 = 204
  ∧ ∃ i r, decimal (params_id (mkRequest "1" ∅)) = Some i
           ∧ r ∈ ach_data (table two_rooms) ∧ Row.id r = i
           ∧ ach_data (table (@router_delete_id small_engine (mkRequest "1" ∅) two_rooms).1)
             = List.filter (λ r, negb (has_id i r)) (ach_data (table two_rooms))
           ∧ ∀ r', r' ∈ ach_data (table (@router_delete_id small_engine (mkRequest "1" ∅)
                                           two_rooms).1) → Row.id r' ≠ i.
Proof.
  split; [reflexivity|].
  exact (@delete_204_removed_a_row small_engine (mkRequest "1" ∅) two_rooms eq_refl).
Defined.

Lemma client_error_changes_nothing_witness :
  (status (@router small_engine DELETE_id (mkRequest "7" ∅) two_rooms).2 = 400
   ∨ status (@router small_engine DELETE_id (mkRequest "7" ∅) two_rooms).2 = 404)
  ∧ table (@router small_engine DELETE_id (mkRequest "7" ∅) two_rooms).1 = table two_rooms.
Proof.
  split; [right; reflexivity|].
  exact (@client_error_changes_nothing small_engine DELETE_id (mkRequest "7" ∅) two_rooms
           (or_intror eq_refl)).
Defined.

Lemma created_ids_are_new_witness :
  consistent (table empty_world)
  ∧ created_ids (@serve small_engine lab_history empty_world).2 = [1; 2]
  ∧ StronglySorted Z.lt (created_ids (@serve small_engine lab_history empty_world).2)
  ∧ NoDup (created_ids (@serve small_engine lab_history empty_world).2)
  ∧ ∀ i r, i ∈ created_ids (@serve small_engine lab_history empty_world).2 →
           r ∈ ach_data (table empty_world) → Row.id r < i.
Proof.
  assert (consistent (table empty_world)) as Hc
    by (split; [apply NoDup_nil_2 | apply Forall_nil_2]).
  split; [exact Hc|]. split; [reflexivity|].
  exact (@created_ids_are_new small_engine lab_history empty_world Hc).
Defined.

Lemma history_keeps_the_table_sound_witness :
  consistent (table empty_world)
  ∧ Forall (@from_truthy_values small_engine) (ach_data (table empty_world))
  ∧ consistent (table (@serve small_engine lab_history empty_world).1)
  ∧ Forall (@from_truthy_values small_engine)
           (ach_data (table (@serve small_engine lab_history empty_world).1)).
Proof.
  assert (consistent (table empty_world)) as Hc
    by (split; [apply NoDup_nil_2 | apply Forall_nil_2]).
  assert (Forall (@from_truthy_values small_engine) (ach_data (table empty_world))) as Hall
    by apply Forall_nil_2.
  split; [exact Hc|]. split; [exact Hall|].
  exact (@history_keeps_the_table_sound small_engine lab_history empty_world Hc Hall).
Defined.

Lemma table_is_what_responses_told_witness :
  consistent (table empty_world)
  ∧ Forall (λ resp, status resp ≠ 500) (@serve small_engine lab_history empty_world).2
  ∧ ach_data (table (@serve small_engine lab_history empty_world).1)
    ≡ₚ @ledger small_engine (ach_data (table empty_world)) lab_history
         (@serve small_engine lab_history empty_world).2.
Proof.
  assert (consistent (table empty_world)) as Hc
    by (split; [apply NoDup_nil_2 | apply Forall_nil_2]).
  assert (Forall (λ resp, status resp ≠ 500)
            (@serve small_engine lab_history empty_world).2) as Hno
    by (repeat constructor; discriminate).
  split; [exact Hc|]. split; [exact Hno|].
  exact (@table_is_what_responses_told small_engine lab_history empty_world Hc Hno).
Defined.

Lemma list_after_history_witness :
  Forall (λ resp, status resp ≠ 500)
    (@serve small_engine lab_history (mkWorld (mkTable [] 1) [] [] [])).2
  ∧ next_fault (@serve small_engine lab_history (mkWorld (mkTable [] 1) [] [] [])).1 = None
  ∧ ∃ data,
      (@router_get small_engine (mkRequest "" ∅)
         (@serve small_engine lab_history (mkWorld (mkTable [] 1) [] [] [])).1).2
      = mkResponse 200 (Some (row_array data))
      ∧ data ≡ₚ @ledger small_engine [] lab_history
                  (@serve small_engine lab_history (mkWorld (mkTable [] 1) [] [] [])).2
      ∧ NoDup data.
Proof.
  assert (Forall (λ resp, status resp ≠ 500)
            (@serve small_engine lab_history (mkWorld (mkTable [] 1) [] [] [])).2) as Hno
    by (repeat constructor; discriminate).
  split; [exact Hno|]. split; [reflexivity|].
  exact (@list_after_history small_engine lab_history [] (mkRequest "" ∅) Hno eq_refl).
Defined.
